(** * goxkit/metrics: provider selection, HTTP middleware, runtime gauges

    A shallow embedding of the Go sources
      - metrics.go, noop/noop.go, otlp/otlp.go     (provider installation)
      - custom/http/http.go                       (request middleware)
      - custom/system/{type,gouges_mem,gouges_sys,system}.go (collectors)
    together with the properties the specification states about them.

    Go values are modelled as follows.  [int], [int64] and [uint64] are [Z]
    (conversions are written out where the source converts); a Go result
    list [(T, error)] is a pair whose second component is [option error]
    ([None] is the nil error); a pointer that the source compares with nil
    is an [option].  Effects on the outside world (calls on external
    objects, log lines, recorded measurements) are kept in explicit state. *)

From Stdlib Require Import ZArith List String Bool Lia.
Import ListNotations.

Local Open Scope string_scope.
Local Open Scope Z_scope.
Local Open Scope list_scope.

(** ** Shared OpenTelemetry vocabulary *)

(** Go's [error] interface: only the message is observable here. *)
Definition error : Type := string.

(** go.opentelemetry.io/otel/attribute *)
Module attribute.

Inductive Value : Type :=
| STRING (s : string)
| INT64 (i : Z)
| BOOL (b : bool).

Record KeyValue : Type := { Key : string; Val : Value }.

Definition String (k v : string) : KeyValue := {| Key := k; Val := STRING v |}.
Definition Int (k : string) (v : Z) : KeyValue := {| Key := k; Val := INT64 v |}.
Definition Bool (k : string) (v : bool) : KeyValue := {| Key := k; Val := BOOL v |}.

Definition keys (kvs : list KeyValue) : list string := map Key kvs.

End attribute.

(** ** custom/http/http.go *)

Module HTTP.

Import attribute.

(** net/http: the part of [*http.Request] the middleware reads. *)
Record Request : Type := { Method : string; RequestURI : string }.

Definition StatusOK : Z := 200.

(** Calls that reach the underlying [http.ResponseWriter] [w]. *)
Inductive WriterCall : Type :=
| CallWriteHeader (code : Z)
| CallWrite (body : string).

(** A measurement handed to one of the two instruments.  [Record] is
    [Float64Histogram.Record], [Add] is [Int64Counter.Add].  The histogram
    value is kept as the integer number of nanoseconds that the source
    passes through [float64(...)]. *)
Inductive Measurement (Counter Histogram : Type) : Type :=
| Record_ (h : Histogram) (value : Z) (attrs : list KeyValue)
| Add_ (c : Counter) (incr : Z) (attrs : list KeyValue).
Arguments Record_ {Counter Histogram}.
Arguments Add_ {Counter Histogram}.

(** What the wrapped handler does with the writer it is given, and how
    it ends.  [DoWork ns] lets [ns] nanoseconds of wall-clock time pass. *)
Inductive HandlerOp : Type :=
| DoWriteHeader (code : Z)
| DoWrite (body : string)
| DoWork (ns : Z).

Inductive Completion : Type :=
| Return
| Panic (v : string).

Record Behaviour : Type := { steps : list HandlerOp; completion : Completion }.

(** [http.Handler]: the behaviour may depend on the request. *)
Definition Handler : Type := Request -> Behaviour.

(** A Go call returns normally or unwinds with a panic. *)
Inductive outcome (A : Type) : Type :=
| Done (a : A)
| Panicked (v : string).
Arguments Done {A}.
Arguments Panicked {A}.

Section Middleware.

(** [metric.Int64Counter] and [metric.Float64Histogram] are interface
    values supplied by the meter. *)
Variables Int64Counter Float64Histogram : Type.

Record httpMetricsMiddleware : Type := {
  requestCounter : Int64Counter;
  requestDuration : Float64Histogram
}.

(** [responseWriter] embeds the writer it decorates; the decorated
    writer's effects go to [written] below. *)
Record responseWriter : Type := { statusCode : Z }.

Record World : Type := {
  now : Z;                                                  (* wall clock, ns *)
  written : list WriterCall;                                (* calls forwarded to w *)
  recorded : list (Measurement Int64Counter Float64Histogram)
}.

(** Go code running against the world. *)
Definition Go (A : Type) : Type := World -> outcome A * World.

Definition ret {A} (a : A) : Go A := fun w => (Done a, w).

Definition bind {A B} (c : Go A) (k : A -> Go B) : Go B :=
  fun w =>
    match c w with
    | (Done a, w') => k a w'
    | (Panicked v, w') => (Panicked v, w')
    end.

Definition panic {A} (v : string) : Go A := fun w => (Panicked v, w).

Notation "x <- c ;; k" := (bind c (fun x => k))
  (at level 61, c at next level, right associativity).
Notation "c ;;; k" := (bind c (fun _ => k))
  (at level 61, right associativity).

Definition forward (c : WriterCall) : Go unit :=
  fun w => (Done tt, {| now := now w; written := written w ++ [c]; recorded := recorded w |}).

Definition emit (m : Measurement Int64Counter Float64Histogram) : Go unit :=
  fun w => (Done tt, {| now := now w; written := written w; recorded := recorded w ++ [m] |}).

Definition elapse (ns : Z) : Go unit :=
  fun w => (Done tt, {| now := now w + ns; written := written w; recorded := recorded w |}).

Definition time_Now : Go Z := fun w => (Done (now w), w).

(** [time.Since(start).Nanoseconds()] *)
Definition time_Since (start : Z) : Go Z := fun w => (Done (now w - start), w).

(** func (lrw *responseWriter) WriteHeader(code int) *)
Definition WriteHeader (lrw : responseWriter) (code : Z) : Go responseWriter :=
  let lrw := {| statusCode := code |} in
  forward (CallWriteHeader code) ;;;
  ret lrw.

(** [Write] is promoted from the embedded writer: it is forwarded and
    leaves [statusCode] alone. *)
Definition Write (lrw : responseWriter) (body : string) : Go responseWriter :=
  forward (CallWrite body) ;;;
  ret lrw.

Fixpoint run_steps (ops : list HandlerOp) (lrw : responseWriter) : Go responseWriter :=
  match ops with
  | [] => ret lrw
  | DoWriteHeader code :: ops' => lrw' <- WriteHeader lrw code ;; run_steps ops' lrw'
  | DoWrite body :: ops' => lrw' <- Write lrw body ;; run_steps ops' lrw'
  | DoWork ns :: ops' => elapse ns ;;; run_steps ops' lrw
  end.

(** [next.ServeHTTP(rw, r)] *)
Definition ServeHTTP (next : Handler) (rw : responseWriter) (r : Request) : Go responseWriter :=
  rw' <- run_steps (steps (next r)) rw ;;
  match completion (next r) with
  | Return => ret rw'
  | Panic v => panic v
  end.

(** The closure [fn] built by [Handler]. *)
Definition fn (m : httpMetricsMiddleware) (next : Handler) (r : Request) : Go unit :=
  let rw := {| statusCode := StatusOK |} in
  start <- time_Now ;;
  rw <- ServeHTTP next rw r ;;
  d <- time_Since start ;;
  emit (Record_ (requestDuration m) d
          [ String "method" (Method r);
            String "uri" (RequestURI r);
            Int "statusCode" (statusCode rw) ]) ;;;
  emit (Add_ (requestCounter m) 1
          [ String "method" (Method r);
            String "uri" (RequestURI r);
            Int "statusCode" (statusCode rw) ]).

(** func (m *httpMetricsMiddleware) Handler(next http.Handler) http.Handler *)
Definition Handler_ (m : httpMetricsMiddleware) (next : Handler) : Request -> Go unit :=
  fn m next.

(** The server hands requests to the wrapped handler one after the
    other; a panic ends that request only. *)
Fixpoint serve (m : httpMetricsMiddleware) (reqs : list (Handler * Request)) (w : World) : World :=
  match reqs with
  | [] => w
  | (next, r) :: reqs' => serve m reqs' (snd (Handler_ m next r w))
  end.

(** *** Observations used in the statements *)

(** Arguments of the [WriteHeader] calls a handler makes, in order. *)
Fixpoint header_codes (ops : list HandlerOp) : list Z :=
  match ops with
  | [] => []
  | DoWriteHeader code :: ops' => code :: header_codes ops'
  | _ :: ops' => header_codes ops'
  end.

Fixpoint work_time (ops : list HandlerOp) : Z :=
  match ops with
  | [] => 0
  | DoWork ns :: ops' => ns + work_time ops'
  | _ :: ops' => work_time ops'
  end.

Definition returns (b : Behaviour) : Prop := completion b = Return.

(** Sum of the increments of the [Add] calls in a measurement log. *)
Fixpoint counter_total (l : list (Measurement Int64Counter Float64Histogram)) : Z :=
  match l with
  | [] => 0
  | Add_ _ incr _ :: l' => incr + counter_total l'
  | Record_ _ _ _ :: l' => counter_total l'
  end.

Fixpoint observations (l : list (Measurement Int64Counter Float64Histogram)) : nat :=
  match l with
  | [] => O
  | Record_ _ _ _ :: l' => S (observations l')
  | Add_ _ _ _ :: l' => observations l'
  end.

(** The attribute set the middleware attaches for request [r] once the
    decorated writer holds [status]. *)
Definition request_attrs (r : Request) (status : Z) : list KeyValue :=
  [ String "method" (Method r); String "uri" (RequestURI r); Int "statusCode" status ].

(** The status the decorator holds once the handler's steps ran: the
    argument of the last [WriteHeader], [StatusOK] when there is none. *)
Definition captured (b : Behaviour) : Z := last (header_codes (steps b)) StatusOK.

(** The two measurements of one request. *)
Definition measurements (m : httpMetricsMiddleware) (b : Behaviour) (r : Request)
    : list (Measurement Int64Counter Float64Histogram) :=
  [ Record_ (requestDuration m) (work_time (steps b)) (request_attrs r (captured b));
    Add_ (requestCounter m) 1 (request_attrs r (captured b)) ].

(** What a run of requests appends to the measurement log when every
    wrapped handler returns. *)
Definition appended (m : httpMetricsMiddleware) (reqs : list (Handler * Request))
    : list (Measurement Int64Counter Float64Histogram) :=
  flat_map (fun nr => measurements m (fst nr (snd nr)) (snd nr)) reqs.

End Middleware.

Arguments appended {Int64Counter Float64Histogram}.
Arguments requestCounter {Int64Counter Float64Histogram}.
Arguments requestDuration {Int64Counter Float64Histogram}.
Arguments now {Int64Counter Float64Histogram}.
Arguments written {Int64Counter Float64Histogram}.
Arguments recorded {Int64Counter Float64Histogram}.
Arguments WriteHeader {Int64Counter Float64Histogram}.
Arguments Write {Int64Counter Float64Histogram}.
Arguments run_steps {Int64Counter Float64Histogram}.
Arguments ServeHTTP {Int64Counter Float64Histogram}.
Arguments fn {Int64Counter Float64Histogram}.
Arguments Handler_ {Int64Counter Float64Histogram}.
Arguments serve {Int64Counter Float64Histogram}.
Arguments counter_total {Int64Counter Float64Histogram}.
Arguments observations {Int64Counter Float64Histogram}.
Arguments measurements {Int64Counter Float64Histogram}.

End HTTP.

(** ** metrics.go, noop/noop.go, otlp/otlp.go *)

(** github.com/goxkit/configs and the SDK objects the installers touch. *)
Module configs.

Import attribute.

(** [*grpc.ClientConn] and the OTLP exporter are identified by the
    object the external constructor handed out. *)
Definition ClientConn : Type := nat.
Definition Exporter : Type := nat.

(** [*sdkmetric.MeterProvider]: [addr] is the identity of the allocated
    object, [reader] the exporter behind its periodic reader (none for a
    provider built without options). *)
Record MeterProvider : Type := {
  addr : nat;
  reader : option Exporter;
  resource : list KeyValue
}.

Record App : Type := { Name : string; Namespace : string; Environment : string }.

Record OTLP : Type := { Enabled : bool; Endpoint : string }.

Record Configs : Type := {
  AppConfigs : App;
  OTLPConfigs : OTLP;
  OTLPExporterConn : option ClientConn;
  MetricsProvider : option MeterProvider
}.

(** Calls that leave the package. *)
Inductive Event : Type :=
| FactoryCalled                                   (* otlpgrpc.NewExporterGRPCClient *)
| ExporterRequested (conn : option ClientConn)    (* otlpmetricgrpc.New(WithGRPCConn(conn)) *)
| LoggedError (msg : string) (err : error).       (* cfgs.Logger.Error *)

(** The process: the configuration object [cfgs] points to, the global
    meter provider of package [otel] ([None] until [SetMeterProvider] is
    called), the allocator, and the history of external calls. *)
Record World : Type := {
  cfgs : Configs;
  globalMeterProvider : option MeterProvider;
  allocated : nat;
  events : list Event
}.

Definition M (A : Type) : Type := World -> A * World.

Definition log (e : Event) : M unit :=
  fun w => (tt, {| cfgs := cfgs w; globalMeterProvider := globalMeterProvider w;
                   allocated := allocated w; events := events w ++ [e] |}).

Definition set_OTLPExporterConn (conn : option ClientConn) : M unit :=
  fun w => (tt, {| cfgs := {| AppConfigs := AppConfigs (cfgs w);
                              OTLPConfigs := OTLPConfigs (cfgs w);
                              OTLPExporterConn := conn;
                              MetricsProvider := MetricsProvider (cfgs w) |};
                   globalMeterProvider := globalMeterProvider w;
                   allocated := allocated w; events := events w |}).

Definition set_MetricsProvider (p : MeterProvider) : M unit :=
  fun w => (tt, {| cfgs := {| AppConfigs := AppConfigs (cfgs w);
                              OTLPConfigs := OTLPConfigs (cfgs w);
                              OTLPExporterConn := OTLPExporterConn (cfgs w);
                              MetricsProvider := Some p |};
                   globalMeterProvider := globalMeterProvider w;
                   allocated := allocated w; events := events w |}).

(** otel.SetMeterProvider *)
Definition SetMeterProvider (p : MeterProvider) : M unit :=
  fun w => (tt, {| cfgs := cfgs w; globalMeterProvider := Some p;
                   allocated := allocated w; events := events w |}).

(** sdkmetric.NewMeterProvider(opts...): a fresh provider object. *)
Definition NewMeterProvider (rd : option Exporter) (res : list KeyValue) : M MeterProvider :=
  fun w => ({| addr := allocated w; reader := rd; resource := res |},
            {| cfgs := cfgs w; globalMeterProvider := globalMeterProvider w;
               allocated := S (allocated w); events := events w |}).

(** Reading the outcome of an installer run. *)
Definition returned {A} (r : (option A * option error) * World) : option A := fst (fst r).
Definition failure {A} (r : (option A * option error) * World) : option error := snd (fst r).
Definition after {A} (r : A * World) : World := snd r.

(** The world in which [otlp.Install] goes on after the factory answered
    [conn] without an error. *)
Definition connected (w : World) (conn : option ClientConn) : World :=
  after (set_OTLPExporterConn conn (after (log FactoryCalled w))).

Definition factory_calls (l : list Event) : nat :=
  List.length (filter (fun e => match e with FactoryCalled => true | _ => false end) l).

(** The two injected collaborators.  Their answer may depend on the
    configuration and on everything that happened before the call. *)
Record Collaborators : Type := {
  NewExporterGRPCClient : list Event -> Configs -> option ClientConn * option error;
  otlpmetricgrpc_New : list Event -> option ClientConn -> Exporter * option error
}.

End configs.

Module noop.

Import configs.

(** [func Install(cfgs *configs.Configs)], returning the provider and an error. *)
Definition Install : M (option MeterProvider * option error) :=
  fun w =>
    let '(provider, w) := NewMeterProvider None [] w in
    let '(_, w) := set_MetricsProvider provider w in
    ((Some provider, None), w).

End noop.

Module otlp.

Import attribute configs.

Section WithCollaborators.

Variable ext : Collaborators.

Definition resource_attributes (c : Configs) : list KeyValue :=
  [ String "service.name" (Name (AppConfigs c));
    String "service.namespace" (Namespace (AppConfigs c));
    String "service.environment" (Environment (AppConfigs c));
    String "deployment.environment" (Environment (AppConfigs c));
    String "telemetry.sdk.language" "go";
    Bool "telemetry.sdk.language" true ].

(** From the exporter creation to the end of [Install]. *)
Definition install_pipeline : M (option MeterProvider * option error) :=
  fun w =>
    let '(exp, err) := otlpmetricgrpc_New ext (events w) (OTLPExporterConn (cfgs w)) in
    let '(_, w) := log (ExporterRequested (OTLPExporterConn (cfgs w))) w in
    match err with
    | Some e =>
        let '(_, w) := log (LoggedError "failed to create OTLP metric exporter" e) w in
        ((None, Some e), w)
    | None =>
        let '(meterProvider, w) := NewMeterProvider (Some exp) (resource_attributes (cfgs w)) w in
        let '(_, w) := set_MetricsProvider meterProvider w in
        let '(_, w) := SetMeterProvider meterProvider w in
        ((Some meterProvider, None), w)
    end.

(** [func Install(cfgs *configs.Configs)], returning the provider and an error. *)
Definition Install : M (option MeterProvider * option error) :=
  fun w =>
    match OTLPExporterConn (cfgs w) with
    | None =>
        let '(conn, err) := NewExporterGRPCClient ext (events w) (cfgs w) in
        let '(_, w) := log FactoryCalled w in
        match err with
        | Some e =>
            let '(_, w) := log (LoggedError "failed to create grpc exporter" e) w in
            ((None, Some e), w)
        | None =>
            let '(_, w) := set_OTLPExporterConn conn w in
            install_pipeline w
        end
    | Some _ => install_pipeline w
    end.

End WithCollaborators.

End otlp.

Module metrics.

Import configs.

(** [func Install(cfgs *configs.Configs)], returning the provider and an error. *)
Definition Install (ext : Collaborators) : M (option MeterProvider * option error) :=
  fun w =>
    if Enabled (OTLPConfigs (cfgs w)) then otlp.Install ext w
    else noop.Install w.

End metrics.

(** ** custom/system *)

(** Package [runtime], as far as the collectors read it. *)
Module runtime.

(** [runtime.MemStats]: the fields the memory collector reads, and
    [StackInuse], which it does not.  All are [uint64] except [NumGC]
    ([uint32]). *)
Record MemStats : Type := {
  Sys : Z;
  TotalAlloc : Z;
  HeapAlloc : Z;
  Frees : Z;
  GCSys : Z;
  HeapIdle : Z;
  HeapInuse : Z;
  HeapObjects : Z;
  HeapReleased : Z;
  HeapSys : Z;
  LastGC : Z;
  Lookups : Z;
  Mallocs : Z;
  MCacheInuse : Z;
  MCacheSys : Z;
  MSpanInuse : Z;
  MSpanSys : Z;
  NextGC : Z;
  OtherSys : Z;
  StackInuse : Z;
  StackSys : Z;
  NumGC : Z;
  PauseTotalNs : Z
}.

(** The running process seen through package [runtime].  Every query
    is answered from the state at the moment of the call, and the
    process moves on between two queries: the [k]-th query sees
    instant [k]. *)
Record Process : Type := {
  instant : nat;
  memstats_at : nat -> MemStats;
  NumCPU_ : Z;
  cgocalls_at : nat -> Z;
  goroutines_at : nat -> Z
}.

Definition later (p : Process) : Process :=
  {| instant := S (instant p); memstats_at := memstats_at p; NumCPU_ := NumCPU_ p;
     cgocalls_at := cgocalls_at p; goroutines_at := goroutines_at p |}.

(** The conversion [int64(x)] of a [uint64]: two's complement
    reinterpretation. *)
Definition int64 (x : Z) : Z :=
  let y := x mod 2 ^ 64 in
  if y <? 2 ^ 63 then y else y - 2 ^ 64.

(** What package [runtime] documents about one snapshot: [Sys] is the
    sum of the [XSys] fields, of which [HeapSys] is one; the heap's
    in-use spans are part of [HeapSys]; live objects sit in in-use
    spans; and the total stays far below [2^63] bytes. *)
Definition consistent (s : MemStats) : Prop :=
  0 <= HeapAlloc s /\ HeapAlloc s <= HeapInuse s /\ HeapInuse s <= HeapSys s /\
  HeapSys s <= Sys s /\ Sys s < 2 ^ 63.

Definition set_StackInuse (v : Z) (s : MemStats) : MemStats :=
  {| Sys := Sys s; TotalAlloc := TotalAlloc s; HeapAlloc := HeapAlloc s; Frees := Frees s;
     GCSys := GCSys s; HeapIdle := HeapIdle s; HeapInuse := HeapInuse s;
     HeapObjects := HeapObjects s; HeapReleased := HeapReleased s; HeapSys := HeapSys s;
     LastGC := LastGC s; Lookups := Lookups s; Mallocs := Mallocs s;
     MCacheInuse := MCacheInuse s; MCacheSys := MCacheSys s; MSpanInuse := MSpanInuse s;
     MSpanSys := MSpanSys s; NextGC := NextGC s; OtherSys := OtherSys s;
     StackInuse := v; StackSys := StackSys s; NumGC := NumGC s;
     PauseTotalNs := PauseTotalNs s |}.

(** The same process with every snapshot passed through [f]. *)
Definition map_memstats (f : MemStats -> MemStats) (p : Process) : Process :=
  {| instant := instant p; memstats_at := fun k => f (memstats_at p k); NumCPU_ := NumCPU_ p;
     cgocalls_at := cgocalls_at p; goroutines_at := goroutines_at p |}.

(** [int64(x)] of a [uint32]: the value itself. *)
Definition int64_of_uint32 (x : Z) : Z := x mod 2 ^ 32.

End runtime.

Module system.

Import runtime.

(** What a sampling callback does: queries to the runtime and values
    handed to the observer. *)
Inductive Event (Gauge : Type) : Type :=
| ReadMemStats_ (stats : MemStats)
| NumCPU_called
| NumCgoCall_called
| NumGoroutine_called
| ObserveInt64_ (g : Gauge) (v : Z).
Arguments ReadMemStats_ {Gauge}.
Arguments NumCPU_called {Gauge}.
Arguments NumCgoCall_called {Gauge}.
Arguments NumGoroutine_called {Gauge}.
Arguments ObserveInt64_ {Gauge}.

Record Tick (Gauge : Type) : Type := {
  proc : Process;
  trace : list (Event Gauge)
}.
Arguments proc {Gauge}.
Arguments trace {Gauge}.

(** [metric.Callback]: [func(context.Context, metric.Observer) error] *)
Definition Callback (Gauge : Type) : Type := Tick Gauge -> option error * Tick Gauge.

(** [metric.Meter], the interface the collectors are given.  [Provider]
    is the state of the provider behind the interface value. *)
Class Meter (Gauge Registration Provider : Type) : Type := {
  Int64ObservableGauge : string -> string -> Provider -> (Gauge * option error) * Provider;
  RegisterCallback : Callback Gauge -> Provider -> (Registration * option error) * Provider
}.

(** type.go *)
Record memGauges (Gauge : Type) : Type := {
  ggSysBytes : Gauge;
  ggAllocBytesTotal : Gauge;
  ggHeapAllocBytes : Gauge;
  ggFreesTotal : Gauge;
  ggGcSysBytes : Gauge;
  ggHeapIdleBytes : Gauge;
  ggInuseBytes : Gauge;
  ggHeapObjects : Gauge;
  ggHeapReleasedBytes : Gauge;
  ggHeapSysBytes : Gauge;
  ggLastGcTimeSeconds : Gauge;
  ggLookupsTotal : Gauge;
  ggMallocsTotal : Gauge;
  ggMCacheInuseBytes : Gauge;
  ggMCacheSysBytes : Gauge;
  ggMspanInuseBytes : Gauge;
  ggMspanSysBytes : Gauge;
  ggNextGcBytes : Gauge;
  ggOtherSysBytes : Gauge;
  ggStackInuseBytes : Gauge;
  ggGcCompletedCycle : Gauge;
  ggGcPauseTotal : Gauge
}.

Record sysGauges (Gauge : Type) : Type := {
  ggThreads : Gauge;
  ggCgo : Gauge;
  ggGRoutines : Gauge
}.

Arguments ggSysBytes {Gauge}.
Arguments ggAllocBytesTotal {Gauge}.
Arguments ggHeapAllocBytes {Gauge}.
Arguments ggFreesTotal {Gauge}.
Arguments ggGcSysBytes {Gauge}.
Arguments ggHeapIdleBytes {Gauge}.
Arguments ggInuseBytes {Gauge}.
Arguments ggHeapObjects {Gauge}.
Arguments ggHeapReleasedBytes {Gauge}.
Arguments ggHeapSysBytes {Gauge}.
Arguments ggLastGcTimeSeconds {Gauge}.
Arguments ggLookupsTotal {Gauge}.
Arguments ggMallocsTotal {Gauge}.
Arguments ggMCacheInuseBytes {Gauge}.
Arguments ggMCacheSysBytes {Gauge}.
Arguments ggMspanInuseBytes {Gauge}.
Arguments ggMspanSysBytes {Gauge}.
Arguments ggNextGcBytes {Gauge}.
Arguments ggOtherSysBytes {Gauge}.
Arguments ggStackInuseBytes {Gauge}.
Arguments ggGcCompletedCycle {Gauge}.
Arguments ggGcPauseTotal {Gauge}.
Arguments ggThreads {Gauge}.
Arguments ggCgo {Gauge}.
Arguments ggGRoutines {Gauge}.

Section Collectors.

Context {Gauge Registration Provider : Type} {meter : Meter Gauge Registration Provider}.

(** *** Inside a callback *)

Definition Cb (A : Type) : Type := Tick Gauge -> A * Tick Gauge.

Definition cb_bind {A B} (c : Cb A) (k : A -> Cb B) : Cb B :=
  fun t => let '(a, t') := c t in k a t'.

Notation "x <- c ;; k" := (cb_bind c (fun x => k))
  (at level 61, c at next level, right associativity).
Notation "c ;;; k" := (cb_bind c (fun _ => k))
  (at level 61, right associativity).

Definition cb_return {A} (a : A) : Cb A := fun t => (a, t).

(** runtime.ReadMemStats(&stats) *)
Definition ReadMemStats : Cb MemStats :=
  fun t =>
    let stats := memstats_at (proc t) (instant (proc t)) in
    (stats, {| proc := later (proc t); trace := trace t ++ [ReadMemStats_ stats] |}).

Definition NumCPU : Cb Z :=
  fun t => (NumCPU_ (proc t),
            {| proc := later (proc t); trace := trace t ++ [NumCPU_called] |}).

Definition NumCgoCall : Cb Z :=
  fun t => (cgocalls_at (proc t) (instant (proc t)),
            {| proc := later (proc t); trace := trace t ++ [NumCgoCall_called] |}).

Definition NumGoroutine : Cb Z :=
  fun t => (goroutines_at (proc t) (instant (proc t)),
            {| proc := later (proc t); trace := trace t ++ [NumGoroutine_called] |}).

(** observer.ObserveInt64(g, v) *)
Definition ObserveInt64 (g : Gauge) (v : Z) : Cb unit :=
  fun t => (tt, {| proc := proc t; trace := trace t ++ [ObserveInt64_ g v] |}).

(** The closure [cb] of [(m *memGauges).Collect]. *)
Definition mem_cb (m : memGauges Gauge) : Callback Gauge :=
  stats <- ReadMemStats ;;
  ObserveInt64 (ggSysBytes m) (int64 (Sys stats)) ;;;
  ObserveInt64 (ggAllocBytesTotal m) (int64 (TotalAlloc stats)) ;;;
  ObserveInt64 (ggHeapAllocBytes m) (int64 (HeapAlloc stats)) ;;;
  ObserveInt64 (ggFreesTotal m) (int64 (Frees stats)) ;;;
  ObserveInt64 (ggGcSysBytes m) (int64 (GCSys stats)) ;;;
  ObserveInt64 (ggHeapIdleBytes m) (int64 (HeapIdle stats)) ;;;
  ObserveInt64 (ggInuseBytes m) (int64 (HeapInuse stats)) ;;;
  ObserveInt64 (ggHeapObjects m) (int64 (HeapObjects stats)) ;;;
  ObserveInt64 (ggHeapReleasedBytes m) (int64 (HeapReleased stats)) ;;;
  ObserveInt64 (ggHeapSysBytes m) (int64 (HeapSys stats)) ;;;
  ObserveInt64 (ggLastGcTimeSeconds m) (int64 (LastGC stats)) ;;;
  ObserveInt64 (ggLookupsTotal m) (int64 (Lookups stats)) ;;;
  ObserveInt64 (ggMallocsTotal m) (int64 (Mallocs stats)) ;;;
  ObserveInt64 (ggMCacheInuseBytes m) (int64 (MCacheInuse stats)) ;;;
  ObserveInt64 (ggMCacheSysBytes m) (int64 (MCacheSys stats)) ;;;
  ObserveInt64 (ggMspanInuseBytes m) (int64 (MSpanInuse stats)) ;;;
  ObserveInt64 (ggMspanSysBytes m) (int64 (MSpanSys stats)) ;;;
  ObserveInt64 (ggNextGcBytes m) (int64 (NextGC stats)) ;;;
  ObserveInt64 (ggOtherSysBytes m) (int64 (OtherSys stats)) ;;;
  ObserveInt64 (ggStackInuseBytes m) (int64 (StackSys stats)) ;;;
  ObserveInt64 (ggGcCompletedCycle m) (int64_of_uint32 (NumGC stats)) ;;;
  ObserveInt64 (ggGcPauseTotal m) (int64 (PauseTotalNs stats)) ;;;
  cb_return None.

(** The closure [cb] of [(s *sysGauges).Collect]. *)
Definition sys_cb (s : sysGauges Gauge) : Callback Gauge :=
  n <- NumCPU ;;
  ObserveInt64 (ggThreads s) n ;;;
  c <- NumCgoCall ;;
  ObserveInt64 (ggCgo s) c ;;;
  g <- NumGoroutine ;;
  ObserveInt64 (ggGRoutines s) g ;;;
  cb_return None.

(** *** Constructors *)

(** A constructor step: [g, err := c; if err != nil { return nil, err }]. *)
Definition try {A B} (c : Provider -> (A * option error) * Provider)
    (k : A -> Provider -> (option B * option error) * Provider)
    : Provider -> (option B * option error) * Provider :=
  fun p =>
    let '((a, err), p') := c p in
    match err with
    | Some e => ((None, Some e), p')
    | None => k a p'
    end.

Notation "x <-? c ;; k" := (try c (fun x => k))
  (at level 61, c at next level, right associativity).

Definition done {B} (b : B) : Provider -> (option B * option error) * Provider :=
  fun p => ((Some b, None), p).

(** func NewMemGauges(meter metric.Meter) (BasicGauges, error) *)
Definition NewMemGauges : Provider -> (option (memGauges Gauge) * option error) * Provider :=
  ggSysBytes <-? Int64ObservableGauge "go_memstats_sys_bytes" "Number of bytes obtained from system." ;;
  ggAllocBytesTotal <-? Int64ObservableGauge "go_memstats_alloc_bytes_total" "Total number of bytes allocated, even if freed." ;;
  ggHeapAllocBytes <-? Int64ObservableGauge "go_memstats_heap_alloc_bytes" "Number of heap bytes allocated and still in use." ;;
  ggFreesTotal <-? Int64ObservableGauge "go_memstats_frees_total" "Total number of frees." ;;
  ggGcSysBytes <-? Int64ObservableGauge "go_memstats_gc_sys_bytes" "Number of bytes used for garbage collection system metadata." ;;
  ggHeapIdleBytes <-? Int64ObservableGauge "go_memstats_heap_idle_bytes" "Number of heap bytes waiting to be used." ;;
  ggInuseBytes <-? Int64ObservableGauge "go_memstats_heap_inuse_bytes" "Number of heap bytes that are in use." ;;
  ggHeapObjects <-? Int64ObservableGauge "go_memstats_heap_objects" "Number of allocated objects." ;;
  ggHeapReleasedBytes <-? Int64ObservableGauge "go_memstats_heap_released_bytes" "Number of heap bytes released to OS." ;;
  ggHeapSysBytes <-? Int64ObservableGauge "go_memstats_heap_sys_bytes" "Number of heap bytes obtained from system." ;;
  ggLastGcTimeSeconds <-? Int64ObservableGauge "go_memstats_last_gc_time_seconds" "Number of seconds since 1970 of last garbage collection." ;;
  ggLookupsTotal <-? Int64ObservableGauge "go_memstats_lookups_total" "Total number of pointer lookups." ;;
  ggMallocsTotal <-? Int64ObservableGauge "go_memstats_mallocs_total" "Total number of mallocs." ;;
  ggMCacheInuseBytes <-? Int64ObservableGauge "go_memstats_mcache_inuse_bytes" "Number of bytes in use by mcache structures." ;;
  ggMCacheSysBytes <-? Int64ObservableGauge "go_memstats_mcache_sys_bytes" "Number of bytes used for mcache structures obtained from system." ;;
  ggMspanInuseBytes <-? Int64ObservableGauge "go_memstats_mspan_inuse_bytes" "Number of bytes in use by mspan structures." ;;
  ggMspanSysBytes <-? Int64ObservableGauge "go_memstats_mspan_sys_bytes" "Number of bytes used for mspan structures obtained from system." ;;
  ggNextGcBytes <-? Int64ObservableGauge "go_memstats_next_gc_bytes" "Number of heap bytes when next garbage collection will take place." ;;
  ggOtherSysBytes <-? Int64ObservableGauge "go_memstats_other_sys_bytes" "Number of bytes used for other system allocations." ;;
  ggStackInuseBytes <-? Int64ObservableGauge "go_memstats_stack_inuse_bytes" "Number of bytes in use by the stack allocator." ;;
  ggGcCompletedCycle <-? Int64ObservableGauge "go_memstats_gc_completed_cycle" "Number of GC cycle completed." ;;
  ggGcPauseTotal <-? Int64ObservableGauge "go_memstats_gc_pause_total" "Number of GC-stop-the-world caused in Nanosecond." ;;
  done {|
    ggSysBytes := ggSysBytes;
    ggAllocBytesTotal := ggAllocBytesTotal;
    ggHeapAllocBytes := ggHeapAllocBytes;
    ggFreesTotal := ggFreesTotal;
    ggGcSysBytes := ggGcSysBytes;
    ggHeapIdleBytes := ggHeapIdleBytes;
    ggInuseBytes := ggInuseBytes;
    ggHeapObjects := ggHeapObjects;
    ggHeapReleasedBytes := ggHeapReleasedBytes;
    ggHeapSysBytes := ggHeapSysBytes;
    ggLastGcTimeSeconds := ggLastGcTimeSeconds;
    ggLookupsTotal := ggLookupsTotal;
    ggMallocsTotal := ggMallocsTotal;
    ggMCacheInuseBytes := ggMCacheInuseBytes;
    ggMCacheSysBytes := ggMCacheSysBytes;
    ggMspanInuseBytes := ggMspanInuseBytes;
    ggMspanSysBytes := ggMspanSysBytes;
    ggNextGcBytes := ggNextGcBytes;
    ggOtherSysBytes := ggOtherSysBytes;
    ggStackInuseBytes := ggStackInuseBytes;
    ggGcCompletedCycle := ggGcCompletedCycle;
    ggGcPauseTotal := ggGcPauseTotal
  |}.

(** func NewSysGauge(meter metric.Meter) (BasicGauges, error) *)
Definition NewSysGauge : Provider -> (option (sysGauges Gauge) * option error) * Provider :=
  ggThreads <-? Int64ObservableGauge "go_threads" "Number of OS threads created." ;;
  ggCgo <-? Int64ObservableGauge "go_cgo" "Number of CGO calls." ;;
  ggGRoutines <-? Int64ObservableGauge "go_goroutines" "Number of goroutines." ;;
  done {| ggThreads := ggThreads; ggCgo := ggCgo; ggGRoutines := ggGRoutines |}.

(** *** Registration *)

(** The interface [BasicGauges]: [Collect(meter metric.Meter)] has no
    result. *)
Class BasicGauges (G : Type) : Type := {
  Collect : G -> Provider -> unit * Provider
}.

(** func (m *memGauges) Collect(meter metric.Meter): the two results
    of [RegisterCallback] are assigned to blanks. *)
#[export] Instance memGauges_BasicGauges : BasicGauges (memGauges Gauge) := {
  Collect m p :=
    let cb := mem_cb m in
    let '(_, p') := RegisterCallback cb p in
    (tt, p')
}.

(** func (s *sysGauges) Collect(meter metric.Meter) *)
#[export] Instance sysGauges_BasicGauges : BasicGauges (sysGauges Gauge) := {
  Collect s p :=
    let cb := sys_cb s in
    let '(_, p') := RegisterCallback cb p in
    (tt, p')
}.

(** *** Constructors as a walk over their instrument lists *)

Definition mem_instruments : list (string * string) :=
  [ ("go_memstats_sys_bytes", "Number of bytes obtained from system.");
    ("go_memstats_alloc_bytes_total", "Total number of bytes allocated, even if freed.");
    ("go_memstats_heap_alloc_bytes", "Number of heap bytes allocated and still in use.");
    ("go_memstats_frees_total", "Total number of frees.");
    ("go_memstats_gc_sys_bytes", "Number of bytes used for garbage collection system metadata.");
    ("go_memstats_heap_idle_bytes", "Number of heap bytes waiting to be used.");
    ("go_memstats_heap_inuse_bytes", "Number of heap bytes that are in use.");
    ("go_memstats_heap_objects", "Number of allocated objects.");
    ("go_memstats_heap_released_bytes", "Number of heap bytes released to OS.");
    ("go_memstats_heap_sys_bytes", "Number of heap bytes obtained from system.");
    ("go_memstats_last_gc_time_seconds", "Number of seconds since 1970 of last garbage collection.");
    ("go_memstats_lookups_total", "Total number of pointer lookups.");
    ("go_memstats_mallocs_total", "Total number of mallocs.");
    ("go_memstats_mcache_inuse_bytes", "Number of bytes in use by mcache structures.");
    ("go_memstats_mcache_sys_bytes", "Number of bytes used for mcache structures obtained from system.");
    ("go_memstats_mspan_inuse_bytes", "Number of bytes in use by mspan structures.");
    ("go_memstats_mspan_sys_bytes", "Number of bytes used for mspan structures obtained from system.");
    ("go_memstats_next_gc_bytes", "Number of heap bytes when next garbage collection will take place.");
    ("go_memstats_other_sys_bytes", "Number of bytes used for other system allocations.");
    ("go_memstats_stack_inuse_bytes", "Number of bytes in use by the stack allocator.");
    ("go_memstats_gc_completed_cycle", "Number of GC cycle completed.");
    ("go_memstats_gc_pause_total", "Number of GC-stop-the-world caused in Nanosecond.") ].

Definition sys_instruments : list (string * string) :=
  [ ("go_threads", "Number of OS threads created.");
    ("go_cgo", "Number of CGO calls.");
    ("go_goroutines", "Number of goroutines.") ].

(** Create the listed instruments in order and stop at the first one
    the meter refuses. *)
Fixpoint create_all (l : list (string * string)) (p : Provider)
    : (list Gauge * option error) * Provider :=
  match l with
  | [] => (([], None), p)
  | (name, desc) :: l' =>
      let '((g, err), p') := Int64ObservableGauge name desc p in
      match err with
      | Some e => (([], Some e), p')
      | None =>
          let '((gs, err'), p'') := create_all l' p' in
          ((g :: gs, err'), p'')
      end
  end.

Definition mem_gauges_list (m : memGauges Gauge) : list Gauge :=
  [ ggSysBytes m; ggAllocBytesTotal m; ggHeapAllocBytes m; ggFreesTotal m;
    ggGcSysBytes m; ggHeapIdleBytes m; ggInuseBytes m; ggHeapObjects m;
    ggHeapReleasedBytes m; ggHeapSysBytes m; ggLastGcTimeSeconds m;
    ggLookupsTotal m; ggMallocsTotal m; ggMCacheInuseBytes m;
    ggMCacheSysBytes m; ggMspanInuseBytes m; ggMspanSysBytes m;
    ggNextGcBytes m; ggOtherSysBytes m; ggStackInuseBytes m;
    ggGcCompletedCycle m; ggGcPauseTotal m ].

Definition sys_gauges_list (s : sysGauges Gauge) : list Gauge :=
  [ ggThreads s; ggCgo s; ggGRoutines s ].

(** The collector whose fields are the given gauges, in the order of
    the struct literal. *)
Definition mem_of_list (gs : list Gauge) : option (memGauges Gauge) :=
  match gs with
  | [ g1; g2; g3; g4; g5; g6; g7; g8; g9; g10; g11; g12; g13; g14; g15; g16;
      g17; g18; g19; g20; g21; g22 ] =>
      Some {| ggSysBytes := g1; ggAllocBytesTotal := g2; ggHeapAllocBytes := g3;
              ggFreesTotal := g4; ggGcSysBytes := g5; ggHeapIdleBytes := g6;
              ggInuseBytes := g7; ggHeapObjects := g8; ggHeapReleasedBytes := g9;
              ggHeapSysBytes := g10; ggLastGcTimeSeconds := g11; ggLookupsTotal := g12;
              ggMallocsTotal := g13; ggMCacheInuseBytes := g14; ggMCacheSysBytes := g15;
              ggMspanInuseBytes := g16; ggMspanSysBytes := g17; ggNextGcBytes := g18;
              ggOtherSysBytes := g19; ggStackInuseBytes := g20;
              ggGcCompletedCycle := g21; ggGcPauseTotal := g22 |}
  | _ => None
  end.

Definition sys_of_list (gs : list Gauge) : option (sysGauges Gauge) :=
  match gs with
  | [ g1; g2; g3 ] => Some {| ggThreads := g1; ggCgo := g2; ggGRoutines := g3 |}
  | _ => None
  end.

(** A constructor's result read off the walk over its instrument list. *)
Definition built {G : Type} (of_list : list Gauge -> option G)
    (r : (list Gauge * option error) * Provider)
    : (option G * option error) * Provider :=
  match r with
  | ((gs, None), p') => ((of_list gs, None), p')
  | ((_, Some e), p') => ((None, Some e), p')
  end.

(** *** Reading a trace *)

Definition is_read (e : Event Gauge) : bool :=
  match e with ReadMemStats_ _ => true | _ => false end.

Definition reads (l : list (Event Gauge)) : nat := List.length (filter is_read l).

(** The values handed to the observer, in order. *)
Fixpoint observed (l : list (Event Gauge)) : list (Gauge * Z) :=
  match l with
  | [] => []
  | ObserveInt64_ g v :: l' => (g, v) :: observed l'
  | _ :: l' => observed l'
  end.

(** The 22 values the memory callback derives from one snapshot. *)
Definition mem_values (s : MemStats) : list Z :=
  [ int64 (Sys s); int64 (TotalAlloc s); int64 (HeapAlloc s); int64 (Frees s);
    int64 (GCSys s); int64 (HeapIdle s); int64 (HeapInuse s); int64 (HeapObjects s);
    int64 (HeapReleased s); int64 (HeapSys s); int64 (LastGC s); int64 (Lookups s);
    int64 (Mallocs s); int64 (MCacheInuse s); int64 (MCacheSys s);
    int64 (MSpanInuse s); int64 (MSpanSys s); int64 (NextGC s); int64 (OtherSys s);
    int64 (StackSys s); int64_of_uint32 (NumGC s); int64 (PauseTotalNs s) ].

(** One sampling tick of a callback on process [pr]. *)
Definition sample (cb : Callback Gauge) (pr : Process) : list (Event Gauge) :=
  trace (snd (cb {| proc := pr; trace := [] |})).

End Collectors.

End system.

(** ** Concrete providers, handlers and processes

    Small instances on which the statements below are exercised. *)

(** A provider that enforces the naming rule of the data model: an
    instrument name can be created once, and a callback reporting on a
    gauge that a registered callback already reports on is refused.  A
    gauge is identified by its name. *)
Module registry.

Import runtime system.

Record Registry : Type := {
  instruments : list (string * string);
  callbacks : list (Callback string)
}.

Definition empty : Registry := {| instruments := []; callbacks := [] |}.

Definition zero_stats : MemStats :=
  {| Sys := 0; TotalAlloc := 0; HeapAlloc := 0; Frees := 0; GCSys := 0; HeapIdle := 0;
     HeapInuse := 0; HeapObjects := 0; HeapReleased := 0; HeapSys := 0; LastGC := 0;
     Lookups := 0; Mallocs := 0; MCacheInuse := 0; MCacheSys := 0; MSpanInuse := 0;
     MSpanSys := 0; NextGC := 0; OtherSys := 0; StackInuse := 0; StackSys := 0;
     NumGC := 0; PauseTotalNs := 0 |}.

Definition idle : Process :=
  {| instant := O; memstats_at := fun _ => zero_stats; NumCPU_ := 1;
     cgocalls_at := fun _ => 0; goroutines_at := fun _ => 1 |}.

(** The gauges a callback reports on. *)
Definition covers (cb : Callback string) : list string :=
  map fst (observed (Gauge := string) (trace (snd (cb {| proc := idle; trace := [] |})))).

Definition known (name : string) (l : list string) : bool := existsb (String.eqb name) l.

Definition create (name desc : string) (r : Registry) : (string * option error) * Registry :=
  if known name (map fst (instruments r))
  then ((name, Some "InstrumentCreationError: duplicate instrument name"), r)
  else ((name, None),
        {| instruments := instruments r ++ [(name, desc)]; callbacks := callbacks r |}).

(** Does [cb] report on a gauge some registered callback reports on? *)
Definition overlaps (cb : Callback string) (r : Registry) : bool :=
  existsb (fun g => known g (flat_map covers (callbacks r))) (covers cb).

Definition register (cb : Callback string) (r : Registry) : (nat * option error) * Registry :=
  if overlaps cb r
  then ((O, Some "InstrumentCreationError: callback already registered"), r)
  else ((List.length (callbacks r), None),
        {| instruments := instruments r; callbacks := callbacks r ++ [cb] |}).

#[export] Instance strict : Meter string nat Registry := {
  Int64ObservableGauge := create;
  RegisterCallback := register
}.

(** The memory collector whose gauges are their names. *)
Definition named : memGauges string :=
  {| ggSysBytes := "go_memstats_sys_bytes";
     ggAllocBytesTotal := "go_memstats_alloc_bytes_total";
     ggHeapAllocBytes := "go_memstats_heap_alloc_bytes";
     ggFreesTotal := "go_memstats_frees_total";
     ggGcSysBytes := "go_memstats_gc_sys_bytes";
     ggHeapIdleBytes := "go_memstats_heap_idle_bytes";
     ggInuseBytes := "go_memstats_heap_inuse_bytes";
     ggHeapObjects := "go_memstats_heap_objects";
     ggHeapReleasedBytes := "go_memstats_heap_released_bytes";
     ggHeapSysBytes := "go_memstats_heap_sys_bytes";
     ggLastGcTimeSeconds := "go_memstats_last_gc_time_seconds";
     ggLookupsTotal := "go_memstats_lookups_total";
     ggMallocsTotal := "go_memstats_mallocs_total";
     ggMCacheInuseBytes := "go_memstats_mcache_inuse_bytes";
     ggMCacheSysBytes := "go_memstats_mcache_sys_bytes";
     ggMspanInuseBytes := "go_memstats_mspan_inuse_bytes";
     ggMspanSysBytes := "go_memstats_mspan_sys_bytes";
     ggNextGcBytes := "go_memstats_next_gc_bytes";
     ggOtherSysBytes := "go_memstats_other_sys_bytes";
     ggStackInuseBytes := "go_memstats_stack_inuse_bytes";
     ggGcCompletedCycle := "go_memstats_gc_completed_cycle";
     ggGcPauseTotal := "go_memstats_gc_pause_total" |}.

(** The empty provider after [NewMemGauges], and after [named] was
    registered on it once. *)
Definition equipped : Registry := snd (NewMemGauges empty).

Definition once : Registry := snd (Collect named equipped).

(** A provider on which two names are already taken. *)
Definition crowded : Registry :=
  {| instruments := [ ("go_memstats_heap_objects", "taken"); ("go_cgo", "taken") ];
     callbacks := [] |}.

(** A process whose stack figures differ. *)
Definition busy_stats : MemStats :=
  {| Sys := 7000; TotalAlloc := 90000; HeapAlloc := 1500; Frees := 40; GCSys := 300;
     HeapIdle := 1000; HeapInuse := 2000; HeapObjects := 25; HeapReleased := 500;
     HeapSys := 3000; LastGC := 1700000000; Lookups := 0; Mallocs := 65; MCacheInuse := 10;
     MCacheSys := 20; MSpanInuse := 30; MSpanSys := 40; NextGC := 4000; OtherSys := 50;
     StackInuse := 64; StackSys := 128; NumGC := 3; PauseTotalNs := 900 |}.

Definition busy : Process :=
  {| instant := O; memstats_at := fun _ => busy_stats; NumCPU_ := 8;
     cgocalls_at := fun _ => 0; goroutines_at := fun k => 5 + Z.of_nat k |}.

End registry.

Module fixtures.

Import HTTP configs.

(** *** HTTP *)

Definition mw : httpMetricsMiddleware string string :=
  {| requestCounter := "http.requests"; requestDuration := "http.request.duration" |}.

Definition quiet : HTTP.World string string := {| now := 1000; written := []; recorded := [] |}.

Definition get_users : Request := {| Method := "GET"; RequestURI := "/users?id=7" |}.

Definition post_item : Request := {| Method := "POST"; RequestURI := "/items" |}.

(** Never calls [WriteHeader]. *)
Definition plain : Handler :=
  fun _ => {| steps := [DoWork 50; DoWrite "ok"]; completion := Return |}.

Definition not_found : Handler :=
  fun _ => {| steps := [DoWriteHeader 404; DoWrite "missing"]; completion := Return |}.

(** Calls [WriteHeader] twice. *)
Definition twice : Handler :=
  fun _ => {| steps := [DoWriteHeader 404; DoWork 5; DoWriteHeader 500]; completion := Return |}.

Definition crashing : Handler :=
  fun _ => {| steps := [DoWork 3]; completion := Panic "nil map" |}.

(** *** Installation *)

Definition app : App := {| Name := "svc"; Namespace := "ns"; Environment := "dev" |}.

Definition config (enabled : bool) (conn : option ClientConn) : Configs :=
  {| AppConfigs := app;
     OTLPConfigs := {| Enabled := enabled; Endpoint := "collector:4317" |};
     OTLPExporterConn := conn;
     MetricsProvider := None |}.

Definition boot (enabled : bool) (conn : option ClientConn) : configs.World :=
  {| cfgs := config enabled conn; globalMeterProvider := None; allocated := O; events := [] |}.

(** A collector that answers. *)
Definition reachable : Collaborators :=
  {| NewExporterGRPCClient := fun _ _ => (Some 7%nat, None);
     otlpmetricgrpc_New := fun _ _ => (1%nat, None) |}.

(** No collector behind the endpoint. *)
Definition unreachable : Collaborators :=
  {| NewExporterGRPCClient := fun _ _ => (None, Some "connection refused");
     otlpmetricgrpc_New := fun _ _ => (0%nat, Some "no connection") |}.

End fixtures.

(** ** The remaining functions of the cited files *)

(** custom/http/http.go: the constructor, and what is needed to speak
    about the response and about mixed traffic. *)
Module http_go.

Import attribute HTTP.

(** The calls a handler makes on the writer it is given, in order. *)
Fixpoint writer_calls (ops : list HandlerOp) : list WriterCall :=
  match ops with
  | [] => []
  | DoWriteHeader code :: ops' => CallWriteHeader code :: writer_calls ops'
  | DoWrite body :: ops' => CallWrite body :: writer_calls ops'
  | DoWork _ :: ops' => writer_calls ops'
  end.

Definition is_return (b : Behaviour) : bool :=
  match completion b with Return => true | Panic _ => false end.

(** The requests of a run whose wrapped handler returns. *)
Definition returning (reqs : list (Handler * Request)) : list (Handler * Request) :=
  filter (fun nr => is_return (fst nr (snd nr))) reqs.


(** The part of [metric.Meter] the constructor uses.  [Provider] is the
    state behind the meter that [otel.Meter] hands out. *)
Class Meter (Counter Histogram Provider : Type) : Type := {
  Int64Counter : string -> string -> Provider -> (Counter * option error) * Provider;
  Float64Histogram : string -> string -> Provider -> (Histogram * option error) * Provider
}.

Section Constructor.

Context {Counter Histogram Provider : Type} {meter : Meter Counter Histogram Provider}.

(** func NewHTTPMetricsMiddleware() (HTTPMetricsMiddleware, error).  The
    struct's [meter] field is set and never read; it is the meter given
    here. *)
Definition NewHTTPMetricsMiddleware
    : Provider -> (option (httpMetricsMiddleware Counter Histogram) * option error) * Provider :=
  fun p =>
    let '((counter, err), p) := Int64Counter "http.requests" "HTTP Requests Counter" p in
    match err with
    | Some e => ((None, Some e), p)
    | None =>
        let '((duration, err), p) :=
          Float64Histogram "http.request.duration" "HTTP Request Duration" p in
        match err with
        | Some e => ((None, Some e), p)
        | None =>
            ((Some {| requestCounter := counter; requestDuration := duration |}, None), p)
        end
    end.

End Constructor.

End http_go.

(** custom/system/system.go *)
Module system_go.

Import runtime system.

(** The meter's provider and the lines written with [logger.Debug]. *)
Record Env (Provider : Type) : Type := {
  provider : Provider;
  debugged : list string
}.
Arguments provider {Provider}.
Arguments debugged {Provider}.

Section Collector.

Context {Gauge Registration Provider : Type} {meter : Meter Gauge Registration Provider}.

Definition Debug (line : string) (s : Env Provider) : Env Provider :=
  {| provider := provider s; debugged := debugged s ++ [line] |}.

Definition on_provider {A} (c : Provider -> A * Provider) (s : Env Provider)
    : A * Env Provider :=
  let '(a, p) := c (provider s) in
  (a, {| provider := p; debugged := debugged s |}).

(** func BasicMetricsCollector(logger *zap.SugaredLogger) error.  A method
    call on a nil interface value would panic. *)
Definition BasicMetricsCollector : Env Provider -> HTTP.outcome (option error) * Env Provider :=
  fun s =>
    let s := Debug "configuring basic metrics..." s in
    let '((mem, err), s) := on_provider NewMemGauges s in
    match err with
    | Some e => (HTTP.Done (Some e), s)
    | None =>
        let '((sys, err), s) := on_provider NewSysGauge s in
        match err with
        | Some e => (HTTP.Done (Some e), s)
        | None =>
            let s := Debug "basic metrics configured" s in
            match mem with
            | None => (HTTP.Panicked "nil pointer dereference", s)
            | Some mem =>
                let '(_, s) := on_provider (Collect mem) s in
                match sys with
                | None => (HTTP.Panicked "nil pointer dereference", s)
                | Some sys =>
                    let '(_, s) := on_provider (Collect sys) s in
                    (HTTP.Done None, s)
                end
            end
        end
    end.

(** The fields the memory callback reads, in the order it reads them. *)
Definition mem_fields (s : MemStats) : list Z :=
  [ Sys s; TotalAlloc s; HeapAlloc s; Frees s; GCSys s; HeapIdle s; HeapInuse s;
    HeapObjects s; HeapReleased s; HeapSys s; LastGC s; Lookups s; Mallocs s;
    MCacheInuse s; MCacheSys s; MSpanInuse s; MSpanSys s; NextGC s; OtherSys s;
    StackSys s; NumGC s; PauseTotalNs s ].

(** Every field read is a count below [2^63] ([NumGC] below [2^32]). *)
Definition below_int64_max (s : MemStats) : Prop :=
  Forall (fun x => 0 <= x < 2 ^ 63) (mem_fields s) /\ NumGC s < 2 ^ 32.

(** [n] runtime queries later. *)
Fixpoint after_queries (n : nat) (pr : Process) : Process :=
  match n with
  | O => pr
  | S n' => later (after_queries n' pr)
  end.

End Collector.

End system_go.

(** A meter for the HTTP constructor that hands out instruments by name
    and refuses a name it has handed out before. *)
Module http_names.

Import http_go.

Definition fresh (name : string) (taken : list string) : bool :=
  negb (existsb (String.eqb name) taken).

Definition create (name desc : string) (taken : list string)
    : (string * option error) * list string :=
  if fresh name taken then ((name, None), taken ++ [name])
  else ((name, Some "duplicate instrument name"), taken).

#[export] Instance by_name : Meter string string (list string) := {
  Int64Counter := create;
  Float64Histogram := create
}.


End http_names.

Module more_fixtures.

Import configs.

(** A collector that accepts the connection and then refuses the
    exporter. *)
Definition half_open : Collaborators :=
  {| NewExporterGRPCClient := fun _ _ => (Some 7%nat, None);
     otlpmetricgrpc_New := fun _ _ => (0%nat, Some "exporter rejected") |}.

Import runtime system registry.

(** The system collector whose gauges are their names. *)
Definition sys_named : sysGauges string :=
  {| ggThreads := "go_threads"; ggCgo := "go_cgo"; ggGRoutines := "go_goroutines" |}.

(** A snapshot whose system total has its top bit set. *)
Definition huge_stats : MemStats :=
  {| Sys := 2 ^ 63 + 5; TotalAlloc := 0; HeapAlloc := 0; Frees := 0; GCSys := 0;
     HeapIdle := 0; HeapInuse := 0; HeapObjects := 0; HeapReleased := 0; HeapSys := 0;
     LastGC := 0; Lookups := 0; Mallocs := 0; MCacheInuse := 0; MCacheSys := 0;
     MSpanInuse := 0; MSpanSys := 0; NextGC := 0; OtherSys := 0; StackInuse := 0;
     StackSys := 0; NumGC := 0; PauseTotalNs := 0 |}.

Definition huge : Process :=
  {| instant := O; memstats_at := fun _ => huge_stats; NumCPU_ := 1;
     cgocalls_at := fun _ => 0; goroutines_at := fun _ => 1 |}.

(** A provider holding nothing of the two collectors. *)
Definition unrelated (r : Registry) : Prop :=
  forall name, In name (map fst (mem_instruments ++ sys_instruments)) ->
               ~ In name (map fst (instruments r)).

Definition add_instruments (l : list (string * string)) (r : Registry) : Registry :=
  {| instruments := instruments r ++ l; callbacks := callbacks r |}.

End more_fixtures.

(** * Properties *)

(** ** The HTTP middleware *)

Module HTTP_facts.

Import attribute HTTP.

Section Middleware.

Context {Int64Counter Float64Histogram : Type}.

Implicit Types (w : HTTP.World Int64Counter Float64Histogram).
Implicit Types (m : httpMetricsMiddleware Int64Counter Float64Histogram).
Implicit Types (r : Request) (next : Handler) (lrw : responseWriter).

Lemma last_nonempty (b : Z) (l : list Z) (d a : Z) : last (b :: l) d = last (b :: l) a.
Proof.
  revert b; induction l as [|c l IH]; intros b; [reflexivity|].
  change (last (c :: l) d = last (c :: l) a). apply IH.
Qed.

Lemma last_cons_default (a d : Z) (l : list Z) : last (a :: l) d = last l a.
Proof.
  destruct l as [|b l]; [reflexivity|].
  change (last (b :: l) d = last (b :: l) a). apply last_nonempty.
Qed.

(** The handler's steps never panic; they leave the last status
    written in the decorator, move the clock and record nothing. *)
Lemma run_steps_spec (ops : list HandlerOp) :
  forall lrw w,
    fst (run_steps ops lrw w)
      = Done {| statusCode := last (header_codes ops) (statusCode lrw) |}
    /\ now (snd (run_steps ops lrw w)) = now w + work_time ops
    /\ recorded (snd (run_steps ops lrw w)) = recorded w.
Proof.
  induction ops as [|op ops IH]; intros lrw w.
  - destruct lrw; cbn; repeat split; lia.
  - destruct op as [code|body|ns]; cbn [run_steps header_codes work_time].
    + rewrite last_cons_default.
      unfold bind, WriteHeader, forward, ret; cbn -[last].
      match goal with |- context [run_steps ops ?l ?w'] =>
        destruct (IH l w') as (H1 & H2 & H3) end.
      cbn in *. auto.
    + unfold bind, Write, forward, ret; cbn.
      match goal with |- context [run_steps ops ?l ?w'] =>
        destruct (IH l w') as (H1 & H2 & H3) end.
      cbn in *. auto.
    + unfold bind, elapse; cbn.
      match goal with |- context [run_steps ops ?l ?w'] =>
        destruct (IH l w') as (H1 & H2 & H3) end.
      cbn in *. repeat split; auto. lia.
Qed.

Lemma fn_returns m next r w :
  returns (next r) ->
  fst (fn m next r w) = Done tt
  /\ recorded (snd (fn m next r w)) = recorded w ++ measurements m (next r) r
  /\ now (snd (fn m next r w)) = now w + work_time (steps (next r)).
Proof.
  unfold returns; intros Hret.
  destruct (run_steps_spec (steps (next r)) {| statusCode := StatusOK |} w)
    as (Hst & Hnow & Hrec).
  unfold fn, ServeHTTP, bind, time_Now, time_Since, emit, ret.
  destruct (run_steps (steps (next r)) {| statusCode := StatusOK |} w) as [o w1].
  cbn [fst snd] in Hst, Hnow, Hrec. subst o. rewrite Hret.
  cbn [fst snd now recorded statusCode]. rewrite Hrec, Hnow.
  unfold measurements, request_attrs, captured.
  cbn [statusCode]. rewrite <- app_assoc. cbn [app].
  repeat split. repeat f_equal; lia.
Qed.

Lemma fn_panics m next r w v :
  completion (next r) = Panic v ->
  fst (fn m next r w) = Panicked v
  /\ recorded (snd (fn m next r w)) = recorded w.
Proof.
  intros Hp.
  destruct (run_steps_spec (steps (next r)) {| statusCode := StatusOK |} w)
    as (Hst & _ & Hrec).
  unfold fn, ServeHTTP, bind, time_Now, panic.
  destruct (run_steps (steps (next r)) {| statusCode := StatusOK |} w) as [o w1].
  cbn [fst snd] in Hst, Hrec. subst o. rewrite Hp. cbn [fst snd]. auto.
Qed.

Lemma counter_total_app (l1 l2 : list (Measurement Int64Counter Float64Histogram)) :
  counter_total (l1 ++ l2) = counter_total l1 + counter_total l2.
Proof.
  induction l1 as [|[h v a|c i a] l1 IH]; cbn [app counter_total]; lia.
Qed.

Lemma observations_app (l1 l2 : list (Measurement Int64Counter Float64Histogram)) :
  observations (l1 ++ l2) = (observations l1 + observations l2)%nat.
Proof.
  induction l1 as [|[h v a|c i a] l1 IH]; cbn [app observations]; lia.
Qed.

Lemma serve_returns m (reqs : list (Handler * Request)) :
  forall w,
    Forall (fun nr => returns (fst nr (snd nr))) reqs ->
    recorded (serve m reqs w) = recorded w ++ appended m reqs.
Proof.
  induction reqs as [|[next r] reqs IH]; intros w Hall.
  - cbn. now rewrite app_nil_r.
  - inversion Hall as [|x l Hr Hrest]; subst. cbn [fst snd] in Hr.
    cbn [serve]. rewrite IH by assumption. unfold Handler_.
    destruct (fn_returns m next r w Hr) as (_ & Hrec & _).
    rewrite Hrec. unfold appended. cbn [flat_map fst snd].
    now rewrite <- app_assoc.
Qed.

Lemma appended_totals m (reqs : list (Handler * Request)) :
  counter_total (appended m reqs) = Z.of_nat (List.length reqs)
  /\ observations (appended m reqs) = List.length reqs.
Proof.
  induction reqs as [|[next r] reqs [IHc IHo]]; [now cbn|].
  unfold appended in *. cbn [flat_map fst snd List.length].
  rewrite counter_total_app, observations_app, IHc, IHo.
  cbn [measurements counter_total observations]. split; lia.
Qed.

(** C1 (as the code has it).  For every request whose wrapped handler
    returns, the middleware appends exactly one duration observation
    and one unit increment of the request counter, both with the same
    attribute set, whose keys are [method], [uri] (the raw request URI)
    and [statusCode]; after [N] such requests the counter has grown by
    [N] and the histogram holds [N] more observations. *)
Theorem C1_one_increment_and_one_observation_per_request m reqs w :
  Forall (fun nr => returns (fst nr (snd nr))) reqs ->
  recorded (serve m reqs w)
    = recorded w
      ++ flat_map (fun nr =>
           let attrs := [ String "method" (Method (snd nr));
                          String "uri" (RequestURI (snd nr));
                          Int "statusCode" (captured (fst nr (snd nr))) ] in
           [ Record_ (requestDuration m) (work_time (steps (fst nr (snd nr)))) attrs;
             Add_ (requestCounter m) 1 attrs ]) reqs
  /\ (forall r status, keys (request_attrs r status) = ["method"; "uri"; "statusCode"])
  /\ counter_total (recorded (serve m reqs w))
       = counter_total (recorded w) + Z.of_nat (List.length reqs)
  /\ observations (recorded (serve m reqs w))
       = (observations (recorded w) + List.length reqs)%nat.
Proof.
  intros Hall. pose proof (serve_returns m reqs w Hall) as Hrec.
  destruct (appended_totals m reqs) as [Hc Ho].
  repeat split.
  - exact Hrec.
  - rewrite Hrec, counter_total_app, Hc. reflexivity.
  - rewrite Hrec, observations_app, Ho. reflexivity.
Qed.

(** C2 (as the code has it).  For every request, the status the
    decorated writer holds when the handler's calls are done is the
    argument of the last [WriteHeader] call the handler made, and 200
    when it made none: every [WriteHeader] call overwrites the status.
    When the handler returns, that status is the one both measurements
    carry. *)
Theorem C2_captured_status_is_last_written m next r w :
  fst (run_steps (steps (next r)) {| statusCode := StatusOK |} w)
    = Done {| statusCode := last (header_codes (steps (next r))) 200 |}
  /\ (returns (next r) ->
      fst (ServeHTTP next {| statusCode := StatusOK |} r w)
        = Done {| statusCode := last (header_codes (steps (next r))) 200 |}
      /\ recorded (snd (fn m next r w))
           = recorded w
             ++ [ Record_ (requestDuration m) (work_time (steps (next r)))
                    (request_attrs r (last (header_codes (steps (next r))) 200));
                  Add_ (requestCounter m) 1
                    (request_attrs r (last (header_codes (steps (next r))) 200)) ])
  /\ (header_codes (steps (next r)) = [] ->
        last (header_codes (steps (next r))) 200 = 200)
  /\ (forall earlier code, header_codes (steps (next r)) = earlier ++ [code] ->
        last (header_codes (steps (next r))) 200 = code).
Proof.
  destruct (run_steps_spec (steps (next r)) {| statusCode := StatusOK |} w)
    as (Hst & _ & _).
  split; [exact Hst|split; [|split]].
  - intros Hret. split.
    + unfold ServeHTTP, bind.
      destruct (run_steps (steps (next r)) {| statusCode := StatusOK |} w) as [o w1].
      cbn [fst] in Hst. subst o. unfold returns in Hret. rewrite Hret. reflexivity.
    + destruct (fn_returns m next r w Hret) as (_ & Hrec & _). exact Hrec.
  - intros ->. reflexivity.
  - intros earlier code ->. apply last_last.
Qed.

(** C7 (as the code has it).  When the wrapped handler panics, the
    panic unwinds through the middleware: neither the counter
    increment nor the duration observation of that request is
    recorded. *)
Theorem C7_panicking_request_is_not_recorded m next r w v :
  completion (next r) = Panic v ->
  fst (Handler_ m next r w) = Panicked v
  /\ recorded (snd (Handler_ m next r w)) = recorded w
  /\ counter_total (recorded (serve m [(next, r)] w)) = counter_total (recorded w).
Proof.
  intros Hp. destruct (fn_panics m next r w v Hp) as [Hout Hrec].
  unfold Handler_. cbn [serve]. unfold Handler_. rewrite Hrec. auto.
Qed.

End Middleware.

Import fixtures.

Lemma C1_witness :
  Forall (fun nr => returns (fst nr (snd nr))) [(plain, get_users); (twice, post_item)]
  /\ counter_total (recorded (serve mw [(plain, get_users); (twice, post_item)] quiet)) = 2.
Proof.
  assert (H : Forall (fun nr : Handler * Request => returns (fst nr (snd nr)))
                [(plain, get_users); (twice, post_item)])
    by (repeat constructor).
  split; [exact H|].
  exact (proj1 (proj2 (proj2
    (C1_one_increment_and_one_observation_per_request mw _ quiet H)))).
Defined.

(** The specification names the third key [status_code]; both measurements of a
    served request carry [statusCode]. *)
Lemma C1_status_key_is_statusCode :
  recorded (snd (Handler_ mw not_found get_users quiet))
    = [ Record_ "http.request.duration" 0
          [ String "method" "GET"; String "uri" "/users?id=7"; Int "statusCode" 404 ];
        Add_ "http.requests" 1
          [ String "method" "GET"; String "uri" "/users?id=7"; Int "statusCode" 404 ] ]
  /\ keys [ String "method" "GET"; String "uri" "/users?id=7"; Int "statusCode" 404 ]
       <> ["method"; "uri"; "status_code"].
Proof.
  split; [reflexivity|]. cbn. intros H. discriminate H.
Qed.

Lemma C2_witness :
  returns (not_found get_users)
  /\ fst (ServeHTTP not_found {| statusCode := StatusOK |} get_users quiet)
       = Done {| statusCode := 404 |}.
Proof.
  split; [reflexivity|].
  exact (proj1 (proj1 (proj2
    (C2_captured_status_is_last_written mw not_found get_users quiet)) eq_refl)).
Defined.

(** A handler that writes 404 and then 500: the first argument is 404,
    the decorator ends with 500 and 500 is what both measurements carry. *)
Lemma C2_second_WriteHeader_overwrites :
  hd_error (header_codes (steps (twice get_users))) = Some 404
  /\ fst (ServeHTTP twice {| statusCode := StatusOK |} get_users quiet)
       = Done {| statusCode := 500 |}
  /\ recorded (snd (Handler_ mw twice get_users quiet))
       = [ Record_ "http.request.duration" 5
             [ String "method" "GET"; String "uri" "/users?id=7"; Int "statusCode" 500 ];
           Add_ "http.requests" 1
             [ String "method" "GET"; String "uri" "/users?id=7"; Int "statusCode" 500 ] ].
Proof. repeat split. Qed.

Lemma C7_witness :
  completion (crashing get_users) = Panic "nil map"
  /\ recorded (snd (Handler_ mw crashing get_users quiet)) = recorded quiet.
Proof.
  split; [reflexivity|].
  exact (proj1 (proj2
    (C7_panicking_request_is_not_recorded mw crashing get_users quiet "nil map" eq_refl))).
Defined.

(** A handler that panics: the request leaves no measurement and the
    counter stays at zero. *)
Lemma C7_crashing_handler_goes_uncounted :
  fst (Handler_ mw crashing get_users quiet) = Panicked "nil map"
  /\ recorded (snd (Handler_ mw crashing get_users quiet)) = []
  /\ counter_total (recorded (serve mw [(crashing, get_users)] quiet)) = 0.
Proof. repeat split. Qed.

End HTTP_facts.

(** ** Provider installation *)

Module Install_facts.

Import attribute configs.

Lemma factory_calls_app (l1 l2 : list Event) :
  factory_calls (l1 ++ l2) = (factory_calls l1 + factory_calls l2)%nat.
Proof.
  unfold factory_calls. now rewrite filter_app, length_app.
Qed.

Section WithCollaborators.

Variable ext : Collaborators.

Implicit Types (w : World) (p : MeterProvider) (c : ClientConn) (e : error).

(** The no-op installer touches the configuration and the allocator
    only. *)
Lemma noop_Install_spec w :
  let p := {| addr := allocated w; reader := None; resource := [] |} in
  returned (noop.Install w) = Some p
  /\ failure (noop.Install w) = None
  /\ MetricsProvider (cfgs (after (noop.Install w))) = Some p
  /\ OTLPExporterConn (cfgs (after (noop.Install w))) = OTLPExporterConn (cfgs w)
  /\ globalMeterProvider (after (noop.Install w)) = globalMeterProvider w
  /\ events (after (noop.Install w)) = events w.
Proof. cbn. repeat split. Qed.

(** The exporter could not be built: nothing is installed. *)
Lemma pipeline_fails w exp e :
  otlpmetricgrpc_New ext (events w) (OTLPExporterConn (cfgs w)) = (exp, Some e) ->
  returned (otlp.install_pipeline ext w) = None
  /\ failure (otlp.install_pipeline ext w) = Some e
  /\ cfgs (after (otlp.install_pipeline ext w)) = cfgs w
  /\ globalMeterProvider (after (otlp.install_pipeline ext w)) = globalMeterProvider w
  /\ events (after (otlp.install_pipeline ext w))
       = events w ++ [ ExporterRequested (OTLPExporterConn (cfgs w));
                       LoggedError "failed to create OTLP metric exporter" e ].
Proof.
  intros H. unfold otlp.install_pipeline, returned, failure, after.
  rewrite H. cbn. rewrite <- app_assoc. repeat split.
Qed.

(** The exporter was built: the new provider is stored in the
    configuration and published. *)
Lemma pipeline_succeeds w exp :
  otlpmetricgrpc_New ext (events w) (OTLPExporterConn (cfgs w)) = (exp, None) ->
  let p := {| addr := allocated w; reader := Some exp;
              resource := otlp.resource_attributes (cfgs w) |} in
  returned (otlp.install_pipeline ext w) = Some p
  /\ failure (otlp.install_pipeline ext w) = None
  /\ MetricsProvider (cfgs (after (otlp.install_pipeline ext w))) = Some p
  /\ OTLPExporterConn (cfgs (after (otlp.install_pipeline ext w))) = OTLPExporterConn (cfgs w)
  /\ globalMeterProvider (after (otlp.install_pipeline ext w)) = Some p
  /\ events (after (otlp.install_pipeline ext w))
       = events w ++ [ ExporterRequested (OTLPExporterConn (cfgs w)) ].
Proof.
  intros H. unfold otlp.install_pipeline, returned, failure, after.
  rewrite H. cbn. repeat split.
Qed.

(** Whatever the exporter constructor answers, the pipeline keeps the
    connection, calls no factory, and asks for an exporter on the
    connection the configuration holds. *)
Lemma pipeline_frame w :
  OTLPExporterConn (cfgs (after (otlp.install_pipeline ext w))) = OTLPExporterConn (cfgs w)
  /\ factory_calls (events (after (otlp.install_pipeline ext w))) = factory_calls (events w)
  /\ exists rest, events (after (otlp.install_pipeline ext w))
       = events w ++ ExporterRequested (OTLPExporterConn (cfgs w)) :: rest.
Proof.
  destruct (otlpmetricgrpc_New ext (events w) (OTLPExporterConn (cfgs w)))
    as [exp [e|]] eqn:H.
  - destruct (pipeline_fails w exp e H) as (_ & _ & Hc & _ & He).
    rewrite Hc, He, factory_calls_app. cbn. repeat split; [lia|eauto].
  - destruct (pipeline_succeeds w exp H) as (_ & _ & _ & Hc & _ & He).
    rewrite Hc, He, factory_calls_app. cbn. repeat split; [lia|eauto].
Qed.

(** Either a provider or an error, never both; the global provider
    moves exactly when a provider is returned. *)
Lemma pipeline_outcome w :
  (exists p, returned (otlp.install_pipeline ext w) = Some p
             /\ failure (otlp.install_pipeline ext w) = None
             /\ MetricsProvider (cfgs (after (otlp.install_pipeline ext w))) = Some p
             /\ globalMeterProvider (after (otlp.install_pipeline ext w)) = Some p)
  \/ (exists e, returned (otlp.install_pipeline ext w) = None
             /\ failure (otlp.install_pipeline ext w) = Some e
             /\ MetricsProvider (cfgs (after (otlp.install_pipeline ext w)))
                  = MetricsProvider (cfgs w)
             /\ globalMeterProvider (after (otlp.install_pipeline ext w))
                  = globalMeterProvider w).
Proof.
  destruct (otlpmetricgrpc_New ext (events w) (OTLPExporterConn (cfgs w)))
    as [exp [e|]] eqn:H.
  - right. exists e. destruct (pipeline_fails w exp e H) as (? & ? & Hc & ? & _).
    rewrite Hc. auto.
  - left. destruct (pipeline_succeeds w exp H) as (? & ? & ? & _ & ? & _). eauto.
Qed.

(** [otlp.Install] with a cached connection is the pipeline. *)
Lemma otlp_Install_cached w c :
  OTLPExporterConn (cfgs w) = Some c ->
  otlp.Install ext w = otlp.install_pipeline ext w.
Proof. intros H. unfold otlp.Install. now rewrite H. Qed.

Lemma otlp_Install_dials w conn :
  OTLPExporterConn (cfgs w) = None ->
  NewExporterGRPCClient ext (events w) (cfgs w) = (conn, None) ->
  otlp.Install ext w = otlp.install_pipeline ext (connected w conn).
Proof. intros H Hf. unfold otlp.Install. rewrite H, Hf. reflexivity. Qed.

Lemma otlp_Install_dial_fails w conn e :
  OTLPExporterConn (cfgs w) = None ->
  NewExporterGRPCClient ext (events w) (cfgs w) = (conn, Some e) ->
  returned (otlp.Install ext w) = None
  /\ failure (otlp.Install ext w) = Some e
  /\ cfgs (after (otlp.Install ext w)) = cfgs w
  /\ globalMeterProvider (after (otlp.Install ext w)) = globalMeterProvider w
  /\ events (after (otlp.Install ext w))
       = events w ++ [ FactoryCalled; LoggedError "failed to create grpc exporter" e ].
Proof.
  intros H Hf. unfold otlp.Install, returned, failure, after.
  rewrite H, Hf. cbn. rewrite <- app_assoc. repeat split.
Qed.

Lemma otlp_Install_outcome w :
  (exists p, returned (otlp.Install ext w) = Some p
             /\ failure (otlp.Install ext w) = None
             /\ MetricsProvider (cfgs (after (otlp.Install ext w))) = Some p
             /\ globalMeterProvider (after (otlp.Install ext w)) = Some p)
  \/ (exists e, returned (otlp.Install ext w) = None
             /\ failure (otlp.Install ext w) = Some e
             /\ MetricsProvider (cfgs (after (otlp.Install ext w)))
                  = MetricsProvider (cfgs w)
             /\ globalMeterProvider (after (otlp.Install ext w))
                  = globalMeterProvider w).
Proof.
  destruct (OTLPExporterConn (cfgs w)) as [c|] eqn:Hc.
  - rewrite (otlp_Install_cached w c Hc). apply pipeline_outcome.
  - destruct (NewExporterGRPCClient ext (events w) (cfgs w)) as [conn [e|]] eqn:Hf.
    + right. exists e.
      destruct (otlp_Install_dial_fails w conn e Hc Hf) as (? & ? & Hcfg & ? & _).
      rewrite Hcfg. auto.
    + rewrite (otlp_Install_dials w conn Hc Hf).
      exact (pipeline_outcome (connected w conn)).
Qed.

Lemma otlp_Install_factory_calls w :
  factory_calls (events (after (otlp.Install ext w)))
    = match OTLPExporterConn (cfgs w) with
      | Some _ => factory_calls (events w)
      | None => S (factory_calls (events w))
      end.
Proof.
  destruct (OTLPExporterConn (cfgs w)) as [c|] eqn:Hc.
  - rewrite (otlp_Install_cached w c Hc).
    now destruct (pipeline_frame w) as (_ & Hn & _).
  - destruct (NewExporterGRPCClient ext (events w) (cfgs w)) as [conn [e|]] eqn:Hf.
    + destruct (otlp_Install_dial_fails w conn e Hc Hf) as (_ & _ & _ & _ & He).
      rewrite He, factory_calls_app. cbn. lia.
    + rewrite (otlp_Install_dials w conn Hc Hf).
      destruct (pipeline_frame (connected w conn)) as (_ & Hn & _).
      rewrite Hn. unfold connected, set_OTLPExporterConn, log, after.
      cbn [snd events]. rewrite factory_calls_app. cbn. lia.
Qed.

(** C3 (as the code has it).  When [Install] succeeds with the
    enabled flag set, the global meter provider is the provider it
    returned.  With the flag clear [Install] succeeds, stores the
    provider it returns in the configuration and leaves the global
    meter provider at its prior value.  When [Install] returns an
    error, no provider is returned and the global meter provider is
    unchanged. *)
Theorem C3_global_provider_after_Install w :
  (Enabled (OTLPConfigs (cfgs w)) = true ->
   failure (metrics.Install ext w) = None ->
   exists p, returned (metrics.Install ext w) = Some p
             /\ globalMeterProvider (after (metrics.Install ext w)) = Some p)
  /\ (Enabled (OTLPConfigs (cfgs w)) = false ->
      failure (metrics.Install ext w) = None
      /\ (exists p, returned (metrics.Install ext w) = Some p
                    /\ MetricsProvider (cfgs (after (metrics.Install ext w))) = Some p)
      /\ globalMeterProvider (after (metrics.Install ext w)) = globalMeterProvider w)
  /\ (forall e, failure (metrics.Install ext w) = Some e ->
      returned (metrics.Install ext w) = None
      /\ globalMeterProvider (after (metrics.Install ext w)) = globalMeterProvider w).
Proof.
  unfold metrics.Install.
  destruct (Enabled (OTLPConfigs (cfgs w))); (split; [|split]).
  - intros _ Hok.
    destruct (otlp_Install_outcome w) as [(p & Hr & _ & _ & Hg)|(e & _ & He & _)].
    + eauto.
    + rewrite He in Hok. discriminate.
  - discriminate.
  - intros e He.
    destruct (otlp_Install_outcome w) as [(p & _ & Hn & _)|(e' & Hr & _ & _ & Hg)].
    + rewrite Hn in He. discriminate.
    + auto.
  - discriminate.
  - intros _. destruct (noop_Install_spec w) as (Hr & Hf & Hm & _ & Hg & _).
    repeat split; eauto.
  - intros e He. destruct (noop_Install_spec w) as (_ & Hf & _).
    rewrite Hf in He. discriminate.
Qed.

(** C4.  [Install] looks at the enabled flag only.  With the flag
    clear it is the no-op installer: it returns a provider without
    reader or exporter and a nil error, and calls nothing outside.
    With the flag set it is the exporting installer, whose provider or
    error it hands back unchanged. *)
Theorem C4_Install_dispatches_on_enabled w :
  (Enabled (OTLPConfigs (cfgs w)) = false ->
   metrics.Install ext w = noop.Install w
   /\ returned (metrics.Install ext w)
        = Some {| addr := allocated w; reader := None; resource := [] |}
   /\ failure (metrics.Install ext w) = None
   /\ events (after (metrics.Install ext w)) = events w)
  /\ (Enabled (OTLPConfigs (cfgs w)) = true ->
      metrics.Install ext w = otlp.Install ext w
      /\ forall e, failure (otlp.Install ext w) = Some e ->
           failure (metrics.Install ext w) = Some e
           /\ returned (metrics.Install ext w) = None).
Proof.
  unfold metrics.Install. split; intros H; rewrite H.
  - destruct (noop_Install_spec w) as (Hr & Hf & _ & _ & _ & He). auto.
  - split; [reflexivity|]. intros e He. split; [exact He|].
    destruct (otlp_Install_outcome w) as [(p & _ & Hn & _)|(e' & Hr & _)].
    + rewrite Hn in He. discriminate.
    + exact Hr.
Qed.

(** C5.  The exporting installer calls the connection factory exactly
    when the configuration holds no connection.  A connection the
    factory hands back is stored in the configuration, and the next
    [Install] builds its exporter on that connection without calling
    the factory.  [Install] with the enabled flag clear makes no
    outside call, so it never calls the factory. *)
Theorem C5_connection_created_once_and_reused w :
  (forall c, OTLPExporterConn (cfgs w) = Some c ->
     factory_calls (events (after (otlp.Install ext w))) = factory_calls (events w)
     /\ OTLPExporterConn (cfgs (after (otlp.Install ext w))) = Some c)
  /\ (OTLPExporterConn (cfgs w) = None ->
      factory_calls (events (after (otlp.Install ext w))) = S (factory_calls (events w)))
  /\ (forall c, OTLPExporterConn (cfgs w) = None ->
      NewExporterGRPCClient ext (events w) (cfgs w) = (Some c, None) ->
      let w1 := after (otlp.Install ext w) in
      OTLPExporterConn (cfgs w1) = Some c
      /\ factory_calls (events (after (otlp.Install ext w1))) = factory_calls (events w1)
      /\ exists rest, events (after (otlp.Install ext w1))
                       = events w1 ++ ExporterRequested (Some c) :: rest)
  /\ (Enabled (OTLPConfigs (cfgs w)) = false ->
      events (after (metrics.Install ext w)) = events w
      /\ factory_calls (events (after (metrics.Install ext w))) = factory_calls (events w)).
Proof.
  split; [|split; [|split]].
  - intros c Hc. split.
    + rewrite otlp_Install_factory_calls, Hc. reflexivity.
    + rewrite (otlp_Install_cached w c Hc).
      destruct (pipeline_frame w) as (Hk & _). now rewrite Hk.
  - intros Hc. rewrite otlp_Install_factory_calls, Hc. reflexivity.
  - intros c Hc Hf w1.
    assert (Hw1 : OTLPExporterConn (cfgs w1) = Some c).
    { unfold w1. rewrite (otlp_Install_dials w (Some c) Hc Hf).
      destruct (pipeline_frame (connected w (Some c))) as (Hk & _).
      rewrite Hk. reflexivity. }
    split; [exact Hw1|]. split.
    + rewrite otlp_Install_factory_calls, Hw1. reflexivity.
    + rewrite (otlp_Install_cached w1 c Hw1).
      destruct (pipeline_frame w1) as (_ & _ & rest & Hev).
      exists rest. rewrite Hev, Hw1. reflexivity.
  - intros H. unfold metrics.Install. rewrite H.
    destruct (noop_Install_spec w) as (_ & _ & _ & _ & _ & He).
    rewrite He. auto.
Qed.

End WithCollaborators.

Import fixtures.

Lemma C3_witness :
  Enabled (OTLPConfigs (cfgs (boot true None))) = true
  /\ failure (metrics.Install reachable (boot true None)) = None
  /\ exists p, returned (metrics.Install reachable (boot true None)) = Some p
               /\ globalMeterProvider (after (metrics.Install reachable (boot true None)))
                    = Some p.
Proof.
  split; [reflexivity|]. split; [reflexivity|].
  exact (proj1 (C3_global_provider_after_Install reachable (boot true None))
           eq_refl eq_refl).
Defined.

(** [Install] with the flag clear succeeds and returns a provider, and
    the global meter provider is still the one from before the call,
    not the provider returned. *)
Lemma C3_noop_Install_leaves_global_provider :
  returned (metrics.Install reachable (boot false None))
    = Some {| addr := 0; reader := None; resource := [] |}
  /\ failure (metrics.Install reachable (boot false None)) = None
  /\ globalMeterProvider (after (metrics.Install reachable (boot false None))) = None
  /\ globalMeterProvider (after (metrics.Install reachable (boot false None)))
       <> returned (metrics.Install reachable (boot false None)).
Proof. repeat split. discriminate. Qed.

Lemma C4_witness :
  Enabled (OTLPConfigs (cfgs (boot false None))) = false
  /\ failure (metrics.Install unreachable (boot false None)) = None.
Proof.
  split; [reflexivity|].
  exact (proj1 (proj2 (proj2
    (proj1 (C4_Install_dispatches_on_enabled unreachable (boot false None)) eq_refl)))).
Defined.

Lemma C5_witness :
  OTLPExporterConn (cfgs (boot true None)) = None
  /\ NewExporterGRPCClient reachable (events (boot true None)) (cfgs (boot true None))
       = (Some 7%nat, None)
  /\ OTLPExporterConn (cfgs (after (otlp.Install reachable (boot true None)))) = Some 7%nat.
Proof.
  split; [reflexivity|]. split; [reflexivity|].
  exact (proj1 (proj1 (proj2 (proj2
    (C5_connection_created_once_and_reused reachable (boot true None))))
    7%nat eq_refl eq_refl)).
Defined.

End Install_facts.

(** ** The runtime collectors *)

Module system_facts.

Import runtime system.

Lemma int64_small (x : Z) : 0 <= x < 2 ^ 63 -> int64 x = x.
Proof.
  intros H. unfold int64. rewrite Z.mod_small by lia.
  destruct (x <? 2 ^ 63) eqn:E; [reflexivity|]. apply Z.ltb_ge in E. lia.
Qed.

Section Callbacks.

Context {Gauge : Type}.

Implicit Types (m : memGauges Gauge) (pr : Process).

(** One tick of the memory callback: one read, then the 22 values of
    that snapshot, field by field. *)
Lemma mem_cb_sample m pr :
  sample (mem_cb m) pr
    = ReadMemStats_ (memstats_at pr (instant pr))
      :: map (fun gv => ObserveInt64_ (fst gv) (snd gv))
             (combine (mem_gauges_list m) (mem_values (memstats_at pr (instant pr)))).
Proof. reflexivity. Qed.

Lemma mem_cb_observed m pr :
  observed (sample (mem_cb m) pr)
    = combine (mem_gauges_list m) (mem_values (memstats_at pr (instant pr))).
Proof. reflexivity. Qed.

(** C6.  One tick of the memory collector's callback reads the
    runtime statistics once, before anything is observed, and hands
    the observer 22 values, all converted from the fields of that one
    snapshot.  As the runtime keeps the heap figures of a snapshot
    below its system total, the value emitted for heap bytes in use
    (allocated, or held in in-use spans) is at most the value emitted
    for system bytes. *)
Theorem C6_memory_gauges_from_one_snapshot m pr :
  let s := memstats_at pr (instant pr) in
  let tr := sample (mem_cb m) pr in
  hd_error tr = Some (ReadMemStats_ s)
  /\ reads tr = 1%nat
  /\ observed tr = combine (mem_gauges_list m) (mem_values s)
  /\ List.length (observed tr) = 22%nat
  /\ nth_error (observed tr) 0 = Some (ggSysBytes m, int64 (Sys s))
  /\ nth_error (observed tr) 2 = Some (ggHeapAllocBytes m, int64 (HeapAlloc s))
  /\ nth_error (observed tr) 6 = Some (ggInuseBytes m, int64 (HeapInuse s))
  /\ (consistent s ->
      int64 (HeapAlloc s) <= int64 (Sys s) /\ int64 (HeapInuse s) <= int64 (Sys s)).
Proof.
  intros s tr. repeat (split; [reflexivity|]).
  intros (H0 & H1 & H2 & H3 & H4).
  rewrite !int64_small by lia. lia.
Qed.

End Callbacks.

Section Constructors.

Context {Gauge Registration Provider : Type} {meter : Meter Gauge Registration Provider}.

Implicit Types (p q : Provider) (l : list (string * string)) (gs : list Gauge).

(** Steps through the instrument creations of a constructor, closing
    the branch in which the meter refuses one. *)
Ltac step_creations :=
  repeat (cbn beta iota;
          match goal with
          | |- context [Int64ObservableGauge ?n ?d ?q] =>
              is_var q;
              destruct (Int64ObservableGauge n d q) as [[? [?|]] ?]; [reflexivity|]
          end);
  cbn beta iota.

Lemma NewMemGauges_walk p :
  NewMemGauges p = built mem_of_list (create_all mem_instruments p).
Proof.
  unfold NewMemGauges, try, done, built, mem_instruments. cbn [create_all].
  step_creations. reflexivity.
Qed.

Lemma NewSysGauge_walk p :
  NewSysGauge p = built sys_of_list (create_all sys_instruments p).
Proof.
  unfold NewSysGauge, try, done, built, sys_instruments. cbn [create_all].
  step_creations. reflexivity.
Qed.

Lemma snd_built {G : Type} (of_list : list Gauge -> option G)
    (r : (list Gauge * option error) * Provider) :
  snd (built of_list r) = snd r.
Proof. now destruct r as [[gs [e|]] p']. Qed.

(** The walk stops at the first instrument the meter refuses and
    reports that error. *)
Lemma create_all_stops pre :
  forall p name desc post gs pk g e pk',
    create_all pre p = ((gs, None), pk) ->
    Int64ObservableGauge name desc pk = ((g, Some e), pk') ->
    exists gs', create_all (pre ++ (name, desc) :: post) p = ((gs', Some e), pk').
Proof.
  induction pre as [|[n d] pre IH]; intros p name desc post gs pk g e pk' Hpre Hfail.
  - cbn in Hpre. injection Hpre as <- <-. cbn. rewrite Hfail. eauto.
  - cbn [create_all app] in *.
    destruct (Int64ObservableGauge n d p) as [[g0 [e0|]] p0]; [discriminate|].
    destruct (create_all pre p0) as [[gs0 err0] p1] eqn:Hrec.
    injection Hpre as <- -> ->.
    destruct (IH p0 name desc post gs0 pk g e pk' Hrec Hfail) as [gs' ->].
    eauto.
Qed.

Lemma create_all_outcome l :
  forall p,
    (exists gs p', create_all l p = ((gs, None), p') /\ List.length gs = List.length l)
    \/ (exists gs e p', create_all l p = ((gs, Some e), p')).
Proof.
  induction l as [|[n d] l IH]; intros p; cbn [create_all].
  - left. eauto.
  - destruct (Int64ObservableGauge n d p) as [[g [e|]] p0]; [right; eauto|].
    destruct (IH p0) as [(gs & p' & -> & Hlen)|(gs & e & p' & ->)].
    + left. exists (g :: gs), p'. cbn. auto.
    + right. eauto.
Qed.

(** A successful walk returns, at each position, the gauge the meter
    handed out for the name at that position. *)
Lemma create_all_nth l :
  forall p gs p' k name desc,
    create_all l p = ((gs, None), p') ->
    nth_error l k = Some (name, desc) ->
    exists pk pk' g,
      Int64ObservableGauge name desc pk = ((g, None), pk') /\ nth_error gs k = Some g.
Proof.
  induction l as [|[n d] l IH]; intros p gs p' k name desc Hall Hk.
  - destruct k; discriminate.
  - cbn [create_all] in Hall.
    destruct (Int64ObservableGauge n d p) as [[g [e|]] p0] eqn:Hg; [discriminate|].
    destruct (create_all l p0) as [[gs0 err0] p1] eqn:Hrec.
    injection Hall as <- -> ->.
    destruct k as [|k]; cbn [nth_error] in *.
    + injection Hk as -> ->. eauto.
    + exact (IH p0 gs0 p' k name desc Hrec Hk).
Qed.

(** The walk changes the provider through instrument creation only. *)
Lemma create_all_frame (P : Provider -> Prop) :
  (forall name desc q, P q -> P (snd (Int64ObservableGauge name desc q))) ->
  forall l p, P p -> P (snd (create_all l p)).
Proof.
  intros Hstep. induction l as [|[n d] l IH]; intros p Hp; cbn [create_all]; [exact Hp|].
  pose proof (Hstep n d p Hp) as Hp0.
  destruct (Int64ObservableGauge n d p) as [[g [e|]] p0]; cbn [snd] in *; [exact Hp0|].
  pose proof (IH p0 Hp0) as Hp1.
  destruct (create_all l p0) as [[gs0 err0] p1]. exact Hp1.
Qed.

Lemma mem_of_list_inv gs (m : memGauges Gauge) :
  mem_of_list gs = Some m -> mem_gauges_list m = gs.
Proof.
  unfold mem_of_list.
  do 22 (destruct gs as [|? gs]; [discriminate|]).
  destruct gs; [|discriminate]. intros H. injection H as <-. reflexivity.
Qed.

Lemma mem_of_list_full gs :
  List.length gs = 22%nat -> exists m : memGauges Gauge, mem_of_list gs = Some m.
Proof.
  do 22 (destruct gs as [|? gs]; [discriminate|]).
  destruct gs; [|discriminate]. cbn. eauto.
Qed.

Lemma sys_of_list_full gs :
  List.length gs = 3%nat -> exists s : sysGauges Gauge, sys_of_list gs = Some s.
Proof.
  do 3 (destruct gs as [|? gs]; [discriminate|]).
  destruct gs; [|discriminate]. cbn. eauto.
Qed.

(** A constructor returns a collector and no error, or no collector
    and an error. *)
Lemma built_outcome {G : Type} (of_list : list Gauge -> option G) l p :
  (forall gs, List.length gs = List.length l -> exists x, of_list gs = Some x) ->
  (exists x, fst (built of_list (create_all l p)) = (Some x, None))
  \/ (exists e, fst (built of_list (create_all l p)) = (None, Some e)).
Proof.
  intros Hfull.
  destruct (create_all_outcome l p) as [(gs & p' & -> & Hlen)|(gs & e & p' & ->)].
  - left. destruct (Hfull gs Hlen) as [x Hx]. exists x. cbn. now rewrite Hx.
  - right. exists e. reflexivity.
Qed.

(** C9.  Each constructor is all-or-nothing.  When the meter refuses
    one of the collector's instruments, the instruments before it
    having been created, the constructor returns no collector and
    that error, and creates nothing further.  A constructor never
    returns a collector together with an error.  It changes the
    provider through instrument creation only, so whatever instrument
    creation preserves (such as what an earlier collector registered)
    still holds after a failed construction. *)
Theorem C9_constructors_all_or_nothing p :
  (forall pre name desc post gs pk g e pk',
     mem_instruments = pre ++ (name, desc) :: post ->
     create_all pre p = ((gs, None), pk) ->
     Int64ObservableGauge name desc pk = ((g, Some e), pk') ->
     NewMemGauges p = ((None, Some e), pk'))
  /\ (forall pre name desc post gs pk g e pk',
     sys_instruments = pre ++ (name, desc) :: post ->
     create_all pre p = ((gs, None), pk) ->
     Int64ObservableGauge name desc pk = ((g, Some e), pk') ->
     NewSysGauge p = ((None, Some e), pk'))
  /\ ((exists m, fst (NewMemGauges p) = (Some m, None))
      \/ (exists e, fst (NewMemGauges p) = (None, Some e)))
  /\ ((exists s, fst (NewSysGauge p) = (Some s, None))
      \/ (exists e, fst (NewSysGauge p) = (None, Some e)))
  /\ (forall P : Provider -> Prop,
       (forall name desc q, P q -> P (snd (Int64ObservableGauge name desc q))) ->
       P p -> P (snd (NewMemGauges p)) /\ P (snd (NewSysGauge p))).
Proof.
  split; [|split; [|split; [|split]]].
  - intros pre name desc post gs pk g e pk' Hl Hpre Hfail.
    destruct (create_all_stops pre p name desc post gs pk g e pk' Hpre Hfail) as [gs' H].
    rewrite NewMemGauges_walk, Hl, H. reflexivity.
  - intros pre name desc post gs pk g e pk' Hl Hpre Hfail.
    destruct (create_all_stops pre p name desc post gs pk g e pk' Hpre Hfail) as [gs' H].
    rewrite NewSysGauge_walk, Hl, H. reflexivity.
  - rewrite NewMemGauges_walk. apply built_outcome. exact mem_of_list_full.
  - rewrite NewSysGauge_walk. apply built_outcome. exact sys_of_list_full.
  - intros P Hstep Hp.
    rewrite NewMemGauges_walk, NewSysGauge_walk, !snd_built.
    split; apply create_all_frame; assumption.
Qed.

(** C8 (as the code has it).  [Collect] hands the collector's callback
    to [RegisterCallback] and returns nothing: both results of
    [RegisterCallback], the registration and the error, are dropped.
    So a second [Collect] of the same collector asks for the same
    registration again, and when the provider refuses it with an
    error and keeps its state, the caller receives nothing and the
    provider is as the first registration left it. *)
Theorem C8_Collect_drops_registration_outcome
    (m : memGauges Gauge) (s : sysGauges Gauge) p :
  Collect m p = (tt, snd (RegisterCallback (mem_cb m) p))
  /\ Collect s p = (tt, snd (RegisterCallback (sys_cb s) p))
  /\ Collect m (snd (Collect m p))
       = (tt, snd (RegisterCallback (mem_cb m) (snd (RegisterCallback (mem_cb m) p))))
  /\ (forall e, snd (fst (RegisterCallback (mem_cb m) p)) = Some e ->
                snd (RegisterCallback (mem_cb m) p) = p ->
                Collect m p = (tt, p))
  /\ (forall e, snd (fst (RegisterCallback (sys_cb s) p)) = Some e ->
                snd (RegisterCallback (sys_cb s) p) = p ->
                Collect s p = (tt, p)).
Proof.
  assert (Hm : forall q, Collect m q = (tt, snd (RegisterCallback (mem_cb m) q))).
  { intros q. cbn. now destruct (RegisterCallback (mem_cb m) q). }
  assert (Hs : forall q, Collect s q = (tt, snd (RegisterCallback (sys_cb s) q))).
  { intros q. cbn. now destruct (RegisterCallback (sys_cb s) q). }
  repeat split.
  - apply Hm.
  - apply Hs.
  - now rewrite !Hm.
  - intros e _ Hkeep. now rewrite Hm, Hkeep.
  - intros e _ Hkeep. now rewrite Hs, Hkeep.
Qed.

(** C10.  The gauge the meter hands out for the name
    [go_memstats_stack_inuse_bytes] becomes the collector's field
    [ggStackInuseBytes]; at every tick the callback gives that gauge
    the snapshot's [StackSys], and nothing the callback observes
    depends on [StackInuse]. *)
Theorem C10_stack_inuse_gauge_reports_StackSys (m : memGauges Gauge) (pr : Process) p p' :
  (NewMemGauges p = ((Some m, None), p') ->
   exists pk pk',
     Int64ObservableGauge "go_memstats_stack_inuse_bytes"
       "Number of bytes in use by the stack allocator." pk
     = ((ggStackInuseBytes m, None), pk'))
  /\ nth_error (observed (sample (mem_cb m) pr)) 19
       = Some (ggStackInuseBytes m, int64 (StackSys (memstats_at pr (instant pr))))
  /\ (forall v, observed (sample (mem_cb m) (map_memstats (set_StackInuse v) pr))
                = observed (sample (mem_cb m) pr)).
Proof.
  split; [|split; reflexivity].
  rewrite NewMemGauges_walk.
  destruct (create_all mem_instruments p) as [[gs [e|]] p1] eqn:Hall; [discriminate|].
  cbn [built]. intros H. injection H as Hm <-.
  apply mem_of_list_inv in Hm.
  destruct (create_all_nth mem_instruments p gs p1 19
              "go_memstats_stack_inuse_bytes"
              "Number of bytes in use by the stack allocator." Hall eq_refl)
    as (pk & pk' & g & Hg & Hnth).
  rewrite <- Hm in Hnth. cbn in Hnth. injection Hnth as <-. eauto.
Qed.

End Constructors.

Import registry.

Lemma C6_witness :
  consistent (memstats_at busy (instant busy))
  /\ int64 (HeapInuse (memstats_at busy (instant busy)))
       <= int64 (Sys (memstats_at busy (instant busy))).
Proof.
  assert (H : consistent (memstats_at busy (instant busy)))
    by (unfold consistent; cbn; lia).
  split; [exact H|].
  pose proof (C6_memory_gauges_from_one_snapshot named busy) as H6.
  cbv zeta in H6.
  exact (proj2 (proj2 (proj2 (proj2 (proj2 (proj2 (proj2 (proj2 H6)))))) H)).
Defined.

Lemma register_refuses (cb : Callback string) (r : Registry) :
  overlaps cb r = true ->
  RegisterCallback cb r
    = ((O, Some "InstrumentCreationError: callback already registered"), r).
Proof. intros H. cbn [RegisterCallback strict]. unfold register. now rewrite H. Qed.

Lemma named_overlaps_once : overlaps (mem_cb named) once = true.
Proof. vm_compute. reflexivity. Qed.

Lemma C8_witness :
  snd (fst (RegisterCallback (mem_cb named) once))
    = Some "InstrumentCreationError: callback already registered"
  /\ snd (RegisterCallback (mem_cb named) once) = once
  /\ Collect named once = (tt, once).
Proof.
  pose proof (register_refuses _ _ named_overlaps_once) as Hr.
  assert (He : snd (fst (RegisterCallback (mem_cb named) once))
               = Some "InstrumentCreationError: callback already registered")
    by (rewrite Hr; reflexivity).
  assert (Hk : snd (RegisterCallback (mem_cb named) once) = once)
    by (rewrite Hr; reflexivity).
  split; [exact He|]. split; [exact Hk|].
  exact (proj1 (proj2 (proj2 (proj2
    (C8_Collect_drops_registration_outcome (meter := strict) named
       {| ggThreads := "go_threads"; ggCgo := "go_cgo"; ggGRoutines := "go_goroutines" |}
       once)))) _ He Hk).
Defined.

(** The collector [named] is built on the empty provider and registered
    once.  The provider refuses the second registration with an error,
    and the second [Collect] still returns [tt], the only value of its
    result type: the error does not reach the caller. *)
Lemma C8_duplicate_registration_error_is_dropped :
  fst (NewMemGauges empty) = (Some named, None)
  /\ snd (fst (RegisterCallback (mem_cb named) equipped)) = None
  /\ snd (fst (RegisterCallback (mem_cb named) once))
       = Some "InstrumentCreationError: callback already registered"
  /\ Collect named once = (tt, once).
Proof.
  pose proof (register_refuses _ _ named_overlaps_once) as Hr.
  split; [vm_compute; reflexivity|]. split; [vm_compute; reflexivity|].
  split; [rewrite Hr; reflexivity|].
  cbn [Collect memGauges_BasicGauges]. rewrite Hr. reflexivity.
Qed.

Lemma C9_witness :
  sys_instruments
    = [("go_threads", "Number of OS threads created.")]
      ++ ("go_cgo", "Number of CGO calls.") :: [("go_goroutines", "Number of goroutines.")]
  /\ snd (fst (create_all [("go_threads", "Number of OS threads created.")] crowded)) = None
  /\ snd (fst (Int64ObservableGauge "go_cgo" "Number of CGO calls."
                 (snd (create_all [("go_threads", "Number of OS threads created.")] crowded))))
       = Some "InstrumentCreationError: duplicate instrument name"
  /\ fst (NewSysGauge crowded)
       = (None, Some "InstrumentCreationError: duplicate instrument name").
Proof.
  split; [reflexivity|].
  split; [vm_compute; reflexivity|]. split; [vm_compute; reflexivity|].
  erewrite (proj1 (proj2 (C9_constructors_all_or_nothing (meter := strict) crowded))
              [("go_threads", "Number of OS threads created.")]
              "go_cgo" "Number of CGO calls."
              [("go_goroutines", "Number of goroutines.")]
              ["go_threads"]
              (snd (create_all [("go_threads", "Number of OS threads created.")] crowded))
              "go_cgo" "InstrumentCreationError: duplicate instrument name"
              (snd (create_all [("go_threads", "Number of OS threads created.")] crowded)));
    [reflexivity|reflexivity|vm_compute; reflexivity|vm_compute; reflexivity].
Defined.

Lemma C10_witness :
  NewMemGauges empty = ((Some named, None), equipped)
  /\ exists pk pk',
       Int64ObservableGauge "go_memstats_stack_inuse_bytes"
         "Number of bytes in use by the stack allocator." pk
       = ((ggStackInuseBytes named, None), pk').
Proof.
  assert (H : NewMemGauges empty = ((Some named, None), equipped))
    by (vm_compute; reflexivity).
  split; [exact H|].
  exact (proj1 (C10_stack_inuse_gauge_reports_StackSys (meter := strict)
                  named busy empty equipped) H).
Defined.

(** On a process with 64 bytes of stack in use out of 128 obtained
    from the system, the gauge [go_memstats_stack_inuse_bytes] is given
    128. *)
Example stack_gauge_on_busy_process :
  StackInuse busy_stats = 64
  /\ StackSys busy_stats = 128
  /\ nth_error (observed (sample (mem_cb named) busy)) 19
       = Some ("go_memstats_stack_inuse_bytes", 128).
Proof. repeat split; vm_compute; reflexivity. Qed.

End system_facts.


(** * Further properties *)

(** ** custom/http/http.go *)

Module http_go_facts.

Import attribute HTTP http_go HTTP_facts.

Section Middleware.

Context {Int64Counter Float64Histogram : Type}.

Implicit Types (w : HTTP.World Int64Counter Float64Histogram).
Implicit Types (m : httpMetricsMiddleware Int64Counter Float64Histogram).
Implicit Types (r : Request) (next : Handler) (lrw : responseWriter).

Lemma run_steps_written (ops : list HandlerOp) :
  forall lrw w, written (snd (run_steps ops lrw w)) = written w ++ writer_calls ops.
Proof.
  induction ops as [|op ops IH]; intros lrw w.
  - cbn. now rewrite app_nil_r.
  - destruct op as [code|body|ns]; cbn [run_steps writer_calls];
      unfold bind, WriteHeader, Write, forward, elapse, ret; cbn;
      rewrite IH; cbn; rewrite <- ?app_assoc; reflexivity.
Qed.

(** X1.  The decorated writer is transparent.  Whatever the handler
    does, every [WriteHeader] and [Write] call it makes reaches the
    underlying writer, unchanged and in order, and the middleware writes
    nothing of its own; the call ends as the handler ends (it returns, or
    panics with the same value); and the clock has advanced by the
    handler's time only. *)
Theorem X1_decorator_is_transparent m next r w :
  written (snd (Handler_ m next r w)) = written w ++ writer_calls (steps (next r))
  /\ fst (Handler_ m next r w)
       = match completion (next r) with
         | Return => Done tt
         | Panic v => Panicked v
         end
  /\ now (snd (Handler_ m next r w)) = now w + work_time (steps (next r)).
Proof.
  pose proof (run_steps_written (steps (next r)) {| statusCode := StatusOK |} w) as Hw.
  destruct (run_steps_spec (steps (next r)) {| statusCode := StatusOK |} w)
    as (Hst & Hnow & _).
  unfold Handler_, fn, ServeHTTP, bind, time_Now, time_Since, emit, ret, panic.
  destruct (run_steps (steps (next r)) {| statusCode := StatusOK |} w) as [o w1].
  cbn [fst snd] in Hw, Hst, Hnow. subst o.
  destruct (completion (next r)); cbn [fst snd written now]; auto.
Qed.



Lemma Handler_recorded m next r w :
  recorded (snd (Handler_ m next r w))
    = recorded w ++ (if is_return (next r) then measurements m (next r) r else []).
Proof.
  unfold Handler_, is_return. destruct (completion (next r)) as [|v] eqn:Hc.
  - now destruct (fn_returns m next r w Hc) as (_ & Hrec & _).
  - destruct (fn_panics m next r w v Hc) as (_ & Hrec). now rewrite Hrec, app_nil_r.
Qed.

Lemma serve_recorded m (reqs : list (Handler * Request)) :
  forall w, recorded (serve m reqs w) = recorded w ++ appended m (returning reqs).
Proof.
  induction reqs as [|[next r] reqs IH]; intros w.
  - cbn. now rewrite app_nil_r.
  - cbn [serve]. rewrite IH, Handler_recorded.
    unfold returning. cbn [filter fst snd].
    destruct (is_return (next r)).
    + unfold appended. cbn [flat_map fst snd]. now rewrite <- app_assoc.
    + now rewrite app_nil_r.
Qed.

(** X3.  In any run of requests, whatever their handlers do, the
    measurement log grows by the two measurements of each request whose
    handler returns, in order of arrival, and by nothing for a request
    whose handler panics: counter and histogram both grow by the number
    of returning requests, which is at most the number of requests. *)
Theorem X3_traffic_counts_returning_requests m reqs w :
  recorded (serve m reqs w) = recorded w ++ appended m (returning reqs)
  /\ counter_total (recorded (serve m reqs w))
       = counter_total (recorded w) + Z.of_nat (List.length (returning reqs))
  /\ observations (recorded (serve m reqs w))
       = (observations (recorded w) + List.length (returning reqs))%nat
  /\ (List.length (returning reqs) <= List.length reqs)%nat.
Proof.
  pose proof (serve_recorded m reqs w) as Hrec.
  destruct (appended_totals m (returning reqs)) as [Hc Ho].
  repeat split.
  - exact Hrec.
  - now rewrite Hrec, counter_total_app, Hc.
  - now rewrite Hrec, observations_app, Ho.
  - apply filter_length_le.
Qed.

End Middleware.

Section Constructor.

Context {Counter Histogram Provider : Type} {meter : Meter Counter Histogram Provider}.

(** X4.  The constructor is all-or-nothing.  If the counter cannot be
    created, it returns no middleware and that error, and the histogram
    is never requested.  If the histogram cannot be created, it returns
    no middleware and that error.  Otherwise it returns, without error, a
    middleware holding the counter the meter made for [http.requests] and
    the histogram it made for [http.request.duration]. *)
Theorem X4_NewHTTPMetricsMiddleware_all_or_nothing (p : Provider) :
  (forall c e p1,
     Int64Counter "http.requests" "HTTP Requests Counter" p = ((c, Some e), p1) ->
     NewHTTPMetricsMiddleware p = ((None, Some e), p1))
  /\ (forall c p1 h e p2,
     Int64Counter "http.requests" "HTTP Requests Counter" p = ((c, None), p1) ->
     Float64Histogram "http.request.duration" "HTTP Request Duration" p1 = ((h, Some e), p2) ->
     NewHTTPMetricsMiddleware p = ((None, Some e), p2))
  /\ (forall c p1 h p2,
     Int64Counter "http.requests" "HTTP Requests Counter" p = ((c, None), p1) ->
     Float64Histogram "http.request.duration" "HTTP Request Duration" p1 = ((h, None), p2) ->
     NewHTTPMetricsMiddleware p
       = ((Some {| requestCounter := c; requestDuration := h |}, None), p2))
  /\ ((exists m, fst (NewHTTPMetricsMiddleware p) = (Some m, None))
      \/ (exists e, fst (NewHTTPMetricsMiddleware p) = (None, Some e))).
Proof.
  unfold NewHTTPMetricsMiddleware. split; [|split; [|split]].
  - intros c e p1 ->. reflexivity.
  - intros c p1 h e p2 -> ->. reflexivity.
  - intros c p1 h p2 -> ->. reflexivity.
  - destruct (Int64Counter "http.requests" "HTTP Requests Counter" p) as [[c [e|]] p1];
      [right; exists e; reflexivity|].
    destruct (Float64Histogram "http.request.duration" "HTTP Request Duration" p1)
      as [[h [e|]] p2]; [right; exists e; reflexivity|left; eexists; reflexivity].
Qed.

End Constructor.

Import fixtures http_names.


Lemma X4_witness :
  Int64Counter "http.requests" "HTTP Requests Counter" ["http.requests"]
    = (("http.requests", Some "duplicate instrument name"), ["http.requests"])
  /\ NewHTTPMetricsMiddleware ["http.requests"]
       = ((None, Some "duplicate instrument name"), ["http.requests"]).
Proof.
  assert (H : Int64Counter "http.requests" "HTTP Requests Counter" ["http.requests"]
              = (("http.requests", Some "duplicate instrument name"), ["http.requests"]))
    by reflexivity.
  split; [exact H|].
  exact (proj1 (X4_NewHTTPMetricsMiddleware_all_or_nothing (meter := by_name)
                  ["http.requests"]) _ _ _ H).
Defined.

End http_go_facts.

(** ** metrics.go, noop/noop.go, otlp/otlp.go *)

Module install_go_facts.

Import attribute configs.

Section WithCollaborators.

Variable ext : Collaborators.

Implicit Types (w : World) (p : MeterProvider) (c : ClientConn) (e : error).

(** Runs an installer symbolically: one case per answer of the
    collaborators. *)
Ltac run_install w :=
  unfold metrics.Install, otlp.Install, otlp.install_pipeline, noop.Install,
    returned, failure, after;
  destruct (Enabled (OTLPConfigs (cfgs w))) eqn:?;
  [ destruct (OTLPExporterConn (cfgs w)) as [?c|] eqn:?;
    [ | destruct (NewExporterGRPCClient ext (events w) (cfgs w)) as [?conn [?e|]] eqn:? ];
    cbn;
    repeat match goal with
           | |- context [otlpmetricgrpc_New ext ?a ?b] =>
               destruct (otlpmetricgrpc_New ext a b) as [?exp [?e|]] eqn:?
           end;
    cbn
  | cbn ].

(** X5.  [Install] never changes the application settings or the OTLP
    settings (so the enabled flag and the endpoint stay as they were),
    never drops a connection the configuration already holds, only adds
    to the history of outside calls, and allocates at most one provider. *)
Theorem X5_Install_leaves_settings_and_connection w :
  AppConfigs (cfgs (after (metrics.Install ext w))) = AppConfigs (cfgs w)
  /\ OTLPConfigs (cfgs (after (metrics.Install ext w))) = OTLPConfigs (cfgs w)
  /\ (forall c, OTLPExporterConn (cfgs w) = Some c ->
        OTLPExporterConn (cfgs (after (metrics.Install ext w))) = Some c)
  /\ (exists l, events (after (metrics.Install ext w)) = events w ++ l)
  /\ (allocated w <= allocated (after (metrics.Install ext w)) <= S (allocated w))%nat.
Proof.
  run_install w;
    (split; [reflexivity|]; split; [reflexivity|]; split; [|split]);
    try (intros ? ?; congruence);
    try lia;
    rewrite <- ?app_assoc; eauto using app_nil_r.
Qed.

(** X6.  [Install] reports an error exactly when it has just logged
    it.  When it returns an error, it returns no provider, its last
    outside call is the log line carrying that error, and nothing was
    allocated, stored in [MetricsProvider] or published.  When it returns
    no error, it returns a freshly allocated provider, stores it in
    [MetricsProvider], and logs nothing. *)
Theorem X6_Install_error_is_logged_and_installs_nothing w :
  (forall e, failure (metrics.Install ext w) = Some e ->
     returned (metrics.Install ext w) = None
     /\ (exists l msg, events (after (metrics.Install ext w))
                        = events w ++ l ++ [LoggedError msg e])
     /\ allocated (after (metrics.Install ext w)) = allocated w
     /\ MetricsProvider (cfgs (after (metrics.Install ext w))) = MetricsProvider (cfgs w)
     /\ globalMeterProvider (after (metrics.Install ext w)) = globalMeterProvider w)
  /\ (failure (metrics.Install ext w) = None ->
     exists p,
       returned (metrics.Install ext w) = Some p
       /\ addr p = allocated w
       /\ allocated (after (metrics.Install ext w)) = S (allocated w)
       /\ MetricsProvider (cfgs (after (metrics.Install ext w))) = Some p
       /\ exists l, events (after (metrics.Install ext w)) = events w ++ l
                    /\ forall msg e, ~ In (LoggedError msg e) l).
Proof.
  split.
  - intros e. run_install w; intros He; try discriminate He; injection He as <-;
      (split; [reflexivity|]; split; [|auto]);
      rewrite <- ?app_assoc.
    + exists [ExporterRequested (Some c)]. eexists. reflexivity.
    + exists [FactoryCalled]. eexists. reflexivity.
    + exists [FactoryCalled; ExporterRequested conn]. eexists. reflexivity.
  - run_install w; intros He; try discriminate He;
      eexists; (split; [reflexivity|]; split; [reflexivity|]; split; [reflexivity|];
                split; [reflexivity|]);
      rewrite <- ?app_assoc.
    + eexists. split; [reflexivity|]. intros msg e [H|[]]. discriminate.
    + eexists. split; [reflexivity|]. intros msg e [H|[H|[]]]; discriminate.
    + exists []. split; [now rewrite app_nil_r|]. intros msg e [].
Qed.

(** X7.  What the configuration holds as connection after the
    exporting installer ran: the cached one, if there was one; otherwise
    whatever the factory handed back without error (which may be nil),
    and nothing when the factory failed.  In particular, a connection the
    factory created stays cached when the exporter cannot be built on it
    and [Install] fails. *)
Theorem X7_connection_cache_after_Install w :
  OTLPExporterConn (cfgs (after (otlp.Install ext w)))
    = match OTLPExporterConn (cfgs w) with
      | Some c => Some c
      | None =>
          match NewExporterGRPCClient ext (events w) (cfgs w) with
          | (conn, None) => conn
          | (_, Some _) => None
          end
      end
  /\ (forall c exp e,
        OTLPExporterConn (cfgs w) = None ->
        NewExporterGRPCClient ext (events w) (cfgs w) = (Some c, None) ->
        otlpmetricgrpc_New ext (events w ++ [FactoryCalled]) (Some c) = (exp, Some e) ->
        failure (otlp.Install ext w) = Some e
        /\ returned (otlp.Install ext w) = None
        /\ OTLPExporterConn (cfgs (after (otlp.Install ext w))) = Some c
        /\ events (after (otlp.Install ext w))
             = events w ++ [ FactoryCalled; ExporterRequested (Some c);
                             LoggedError "failed to create OTLP metric exporter" e ]).
Proof.
  split.
  - unfold otlp.Install, otlp.install_pipeline, after.
    destruct (OTLPExporterConn (cfgs w)) as [c|] eqn:Hc;
      [ | destruct (NewExporterGRPCClient ext (events w) (cfgs w)) as [conn [e|]] ];
      cbn; rewrite ?Hc;
      repeat match goal with
             | |- context [otlpmetricgrpc_New ext ?a ?b] =>
                 destruct (otlpmetricgrpc_New ext a b) as [exp [e'|]]
             end;
      cbn; rewrite ?Hc; reflexivity.
  - intros c exp e Hc Hf He.
    unfold otlp.Install, otlp.install_pipeline, returned, failure, after.
    rewrite Hc, Hf. cbn. rewrite He. cbn. rewrite <- !app_assoc. repeat split.
Qed.


Lemma Install_returned w p :
  returned (metrics.Install ext w) = Some p ->
  addr p = allocated w
  /\ allocated (after (metrics.Install ext w)) = S (allocated w)
  /\ MetricsProvider (cfgs (after (metrics.Install ext w))) = Some p.
Proof.
  run_install w; intros H; try discriminate H; injection H as <-; cbn; auto.
Qed.

End WithCollaborators.

(** X9.  Every successful [Install] makes a provider of its own: two
    successive calls on the same configuration, whatever the flag and
    the collaborators answer, return different providers, and
    [MetricsProvider] holds the later one. *)
Theorem X9_each_Install_makes_a_new_provider (ext1 ext2 : Collaborators) (w : World)
    (p1 p2 : MeterProvider) :
  returned (metrics.Install ext1 w) = Some p1 ->
  returned (metrics.Install ext2 (after (metrics.Install ext1 w))) = Some p2 ->
  (addr p1 < addr p2)%nat
  /\ p1 <> p2
  /\ MetricsProvider (cfgs (after (metrics.Install ext2 (after (metrics.Install ext1 w)))))
       = Some p2.
Proof.
  intros H1 H2.
  destruct (Install_returned ext1 w p1 H1) as (Ha1 & Hn1 & _).
  destruct (Install_returned ext2 _ p2 H2) as (Ha2 & _ & Hm2).
  assert (Hlt : (addr p1 < addr p2)%nat) by lia.
  repeat split; [exact Hlt| |exact Hm2].
  intros ->. lia.
Qed.

Import fixtures.

Lemma X6_witness :
  failure (metrics.Install unreachable (boot true None)) = Some "connection refused"
  /\ allocated (after (metrics.Install unreachable (boot true None))) = O.
Proof.
  assert (H : failure (metrics.Install unreachable (boot true None))
              = Some "connection refused") by reflexivity.
  split; [exact H|].
  exact (proj1 (proj2 (proj2
    (proj1 (X6_Install_error_is_logged_and_installs_nothing unreachable (boot true None))
       _ H)))).
Defined.

Lemma X7_witness :
  OTLPExporterConn (cfgs (boot true None)) = None
  /\ NewExporterGRPCClient more_fixtures.half_open (events (boot true None))
       (cfgs (boot true None)) = (Some 7%nat, None)
  /\ otlpmetricgrpc_New more_fixtures.half_open (events (boot true None) ++ [FactoryCalled])
       (Some 7%nat) = (0%nat, Some "exporter rejected")
  /\ failure (otlp.Install more_fixtures.half_open (boot true None))
       = Some "exporter rejected"
  /\ OTLPExporterConn (cfgs (after (otlp.Install more_fixtures.half_open (boot true None))))
       = Some 7%nat.
Proof.
  split; [reflexivity|]. split; [reflexivity|]. split; [reflexivity|].
  pose proof (proj2 (X7_connection_cache_after_Install more_fixtures.half_open
                       (boot true None)) 7%nat 0%nat "exporter rejected"
                eq_refl eq_refl eq_refl) as (Hf & _ & Hc & _).
  split; [exact Hf|exact Hc].
Defined.


Lemma X9_witness :
  returned (metrics.Install reachable (boot true None))
    = Some {| addr := 0; reader := Some 1%nat;
              resource := otlp.resource_attributes (config true None) |}
  /\ returned (metrics.Install reachable (after (metrics.Install reachable (boot true None))))
       = Some {| addr := 1; reader := Some 1%nat;
                 resource := otlp.resource_attributes (config true None) |}
  /\ (0 < 1)%nat.
Proof.
  split; [reflexivity|]. split; [reflexivity|].
  exact (proj1 (X9_each_Install_makes_a_new_provider reachable reachable (boot true None)
                  _ _ eq_refl eq_refl)).
Defined.

End install_go_facts.

(** ** custom/system *)

Module system_go_facts.

Import runtime system system_go system_facts.

Lemma int64_range (x : Z) : - 2 ^ 63 <= int64 x < 2 ^ 63.
Proof.
  unfold int64. pose proof (Z.mod_pos_bound x (2 ^ 64) ltac:(lia)) as H.
  destruct (x mod 2 ^ 64 <? 2 ^ 63) eqn:E.
  - apply Z.ltb_lt in E. lia.
  - apply Z.ltb_ge in E. lia.
Qed.

Lemma int64_wraps (x : Z) : 2 ^ 63 <= x < 2 ^ 64 -> int64 x = x - 2 ^ 64.
Proof.
  intros H. unfold int64. rewrite Z.mod_small by lia.
  destruct (x <? 2 ^ 63) eqn:E; [|reflexivity]. apply Z.ltb_lt in E. lia.
Qed.

Lemma after_queries_frame (n : nat) (pr : Process) :
  NumCPU_ (after_queries n pr) = NumCPU_ pr
  /\ instant (after_queries n pr) = (n + instant pr)%nat
  /\ memstats_at (after_queries n pr) = memstats_at pr.
Proof.
  induction n as [|n (H1 & H2 & H3)]; cbn; [auto|].
  rewrite H1, H2, H3. auto.
Qed.

Section Callbacks.

Context {Gauge : Type}.

Implicit Types (m : memGauges Gauge) (s : sysGauges Gauge) (pr : Process) (t : Tick Gauge).

(** X10.  One tick of the system collector's callback asks the runtime
    three separate questions, each just before the value is observed, so
    the three values are not taken at one instant; it never reads the
    memory statistics.  The gauge created as [go_threads] is given the
    number of logical CPUs, which is the same at every tick. *)
Theorem X10_system_callback_queries s pr :
  sample (sys_cb s) pr
    = [ NumCPU_called;
        ObserveInt64_ (ggThreads s) (NumCPU_ pr);
        NumCgoCall_called;
        ObserveInt64_ (ggCgo s) (cgocalls_at pr (1 + instant pr));
        NumGoroutine_called;
        ObserveInt64_ (ggGRoutines s) (goroutines_at pr (2 + instant pr)) ]
  /\ reads (sample (sys_cb s) pr) = O
  /\ forall n, nth_error (observed (sample (sys_cb s) (after_queries n pr))) 0
                = Some (ggThreads s, NumCPU_ pr).
Proof.
  split; [reflexivity|]. split; [reflexivity|].
  intros n. destruct (after_queries_frame n pr) as (H & _). cbn. now rewrite H.
Qed.

(** X11.  A callback never returns an error and never rewrites what was
    observed before it ran: it appends its own events to the trace.  So
    two ticks of the memory callback in a row give two reads and 44
    observations, the first 22 from one snapshot and the last 22 from the
    next, with no value carried over from tick to tick. *)
Theorem X11_callbacks_append_and_never_fail m s t :
  mem_cb m t
    = (None, {| proc := after_queries 1 (proc t);
                trace := trace t ++ sample (mem_cb m) (proc t) |})
  /\ sys_cb s t
       = (None, {| proc := after_queries 3 (proc t);
                   trace := trace t ++ sample (sys_cb s) (proc t) |})
  /\ trace (snd (mem_cb m (snd (mem_cb m t))))
       = trace t ++ sample (mem_cb m) (proc t) ++ sample (mem_cb m) (later (proc t))
  /\ observed (sample (mem_cb m) (later (proc t)))
       = combine (mem_gauges_list m) (mem_values (memstats_at (proc t) (S (instant (proc t))))).
Proof.
  assert (Hm : forall t', mem_cb m t'
                 = (None, {| proc := after_queries 1 (proc t');
                             trace := trace t' ++ sample (mem_cb m) (proc t') |})).
  { intros t'.
    cbv [mem_cb sample cb_bind cb_return ReadMemStats ObserveInt64 after_queries
         fst snd proc trace].
    rewrite <- !app_assoc. reflexivity. }
  split; [apply Hm|]. split; [|split].
  - cbv [sys_cb sample cb_bind cb_return NumCPU NumCgoCall NumGoroutine ObserveInt64
         after_queries fst snd proc trace].
    rewrite <- !app_assoc. reflexivity.
  - rewrite (Hm t). cbn [snd]. rewrite (Hm _). cbn [snd trace proc after_queries].
    now rewrite <- app_assoc.
  - reflexivity.
Qed.

(** X12.  Every value the memory callback emits fits a signed 64-bit
    integer.  When every field it reads is below [2^63] (and the cycle
    count below [2^32]), the emitted values are the fields themselves, in
    the order of the gauges. *)
Theorem X12_memory_values_are_the_fields (st : MemStats) :
  Forall (fun v => - 2 ^ 63 <= v < 2 ^ 63) (mem_values st)
  /\ (below_int64_max st -> mem_values st = mem_fields st).
Proof.
  split.
  - unfold mem_values.
    repeat (apply Forall_cons; [first [apply int64_range | idtac]|]); [|apply Forall_nil].
    unfold int64_of_uint32.
    pose proof (Z.mod_pos_bound (NumGC st) (2 ^ 32) ltac:(lia)). lia.
  - intros [Hall Hgc]. unfold mem_fields in Hall.
    repeat match goal with
           | H : Forall _ (_ :: _) |- _ => inversion H; subst; clear H
           end.
    unfold mem_values, mem_fields, int64_of_uint32.
    rewrite !int64_small by assumption.
    rewrite (Z.mod_small (NumGC st)) by lia. reflexivity.
Qed.

(** X13.  A 64-bit field at or above [2^63] is emitted as a negative
    number, the field minus [2^64]; shown for the system-bytes gauge. *)
Theorem X13_large_field_is_emitted_negative m pr :
  2 ^ 63 <= Sys (memstats_at pr (instant pr)) < 2 ^ 64 ->
  nth_error (observed (sample (mem_cb m) pr)) 0
    = Some (ggSysBytes m, Sys (memstats_at pr (instant pr)) - 2 ^ 64)
  /\ Sys (memstats_at pr (instant pr)) - 2 ^ 64 < 0.
Proof.
  intros H. split; [|lia]. rewrite mem_cb_observed.
  cbn [mem_gauges_list mem_values combine nth_error]. now rewrite (int64_wraps _ H).
Qed.

End Callbacks.

Section Constructors.

Context {Gauge Registration Provider : Type} {meter : Meter Gauge Registration Provider}.

Implicit Types (p q : Provider) (env : Env Provider).

Lemma mem_of_gauges_list (m : memGauges Gauge) : mem_of_list (mem_gauges_list m) = Some m.
Proof. now destruct m. Qed.

Lemma sys_of_gauges_list (sg : sysGauges Gauge) : sys_of_list (sys_gauges_list sg) = Some sg.
Proof. now destruct sg. Qed.

Lemma sys_of_list_inv (gs : list Gauge) (sg : sysGauges Gauge) :
  sys_of_list gs = Some sg -> sys_gauges_list sg = gs.
Proof.
  unfold sys_of_list.
  do 3 (destruct gs as [|? gs]; [discriminate|]).
  destruct gs; [|discriminate]. intros H. injection H as <-. reflexivity.
Qed.

(** X14.  A constructor returns a collector exactly when the meter
    created every instrument of its list, in the order of the list; the
    collector then holds, field by field, the gauge the meter returned
    for the name at that position, and the provider is as the last
    creation left it. *)
Theorem X14_collector_holds_the_created_gauges p :
  (forall m p', NewMemGauges p = ((Some m, None), p')
                <-> create_all mem_instruments p = ((mem_gauges_list m, None), p'))
  /\ (forall sg p', NewSysGauge p = ((Some sg, None), p')
                    <-> create_all sys_instruments p = ((sys_gauges_list sg, None), p')).
Proof.
  split.
  - intros m p'. rewrite NewMemGauges_walk. split.
    + destruct (create_all mem_instruments p) as [[gs [e|]] p1]; cbn [built];
        intros H; [discriminate|]. injection H as Hm ->.
      now rewrite (mem_of_list_inv gs m Hm).
    + intros ->. cbn [built]. now rewrite mem_of_gauges_list.
  - intros sg p'. rewrite NewSysGauge_walk. split.
    + destruct (create_all sys_instruments p) as [[gs [e|]] p1]; cbn [built];
        intros H; [discriminate|]. injection H as Hs ->.
      now rewrite (sys_of_list_inv gs sg Hs).
    + intros ->. cbn [built]. now rewrite sys_of_gauges_list.
Qed.

Lemma NewMemGauges_outcome p :
  (exists m, fst (NewMemGauges p) = (Some m, None))
  \/ (exists e, fst (NewMemGauges p) = (None, Some e)).
Proof. rewrite NewMemGauges_walk. apply built_outcome. exact mem_of_list_full. Qed.

Lemma NewSysGauge_outcome p :
  (exists sg, fst (NewSysGauge p) = (Some sg, None))
  \/ (exists e, fst (NewSysGauge p) = (None, Some e)).
Proof. rewrite NewSysGauge_walk. apply built_outcome. exact sys_of_list_full. Qed.

(** X15.  [BasicMetricsCollector] never panics (it never calls a method
    on a nil collector).  It returns the error of the first constructor
    that fails, the memory collector's before the system collector's, and
    nil when both succeed, whatever [RegisterCallback] answers. *)
Theorem X15_BasicMetricsCollector_returns_first_constructor_error env :
  fst (BasicMetricsCollector env)
    = HTTP.Done
        match snd (fst (NewMemGauges (provider env))) with
        | Some e => Some e
        | None => snd (fst (NewSysGauge (snd (NewMemGauges (provider env)))))
        end.
Proof.
  unfold BasicMetricsCollector, on_provider, Debug. cbn [provider debugged].
  destruct (NewMemGauges_outcome (provider env)) as [[m Hm]|[e He]];
    destruct (NewMemGauges (provider env)) as [[om oe] p1]; cbn [fst snd] in *.
  - injection Hm as -> ->. cbn [provider debugged].
    destruct (NewSysGauge_outcome p1) as [[sg Hs]|[e He]];
      destruct (NewSysGauge p1) as [[os oe] p2]; cbn [fst snd provider debugged] in *.
    + injection Hs as -> ->. cbn [provider debugged].
      destruct (Collect m p2) as [u p3]. cbn [provider debugged].
      destruct (Collect sg p3) as [u' p4]. reflexivity.
    + injection He as -> ->. reflexivity.
  - injection He as -> ->. reflexivity.
Qed.

(** X16.  When [BasicMetricsCollector] returns an error, no callback
    was registered, not even that of a collector that was built: the
    provider was changed by instrument creation only, and the second
    debug line was not written. *)
Theorem X16_failed_setup_registers_no_callback env e :
  fst (BasicMetricsCollector env) = HTTP.Done (Some e) ->
  debugged (snd (BasicMetricsCollector env))
    = debugged env ++ ["configuring basic metrics..."]
  /\ (provider (snd (BasicMetricsCollector env)) = snd (NewMemGauges (provider env))
      \/ provider (snd (BasicMetricsCollector env))
           = snd (NewSysGauge (snd (NewMemGauges (provider env)))))
  /\ (forall P : Provider -> Prop,
        (forall name desc q, P q -> P (snd (Int64ObservableGauge name desc q))) ->
        P (provider env) -> P (provider (snd (BasicMetricsCollector env)))).
Proof.
  intros Hres.
  assert (Hframe : forall (P : Provider -> Prop),
            (forall name desc q, P q -> P (snd (Int64ObservableGauge name desc q))) ->
            forall q, P q -> P (snd (NewMemGauges q)) /\ P (snd (NewSysGauge q))).
  { intros P Hstep q Hq. rewrite NewMemGauges_walk, NewSysGauge_walk, !snd_built.
    split; apply create_all_frame; assumption. }
  revert Hres.
  unfold BasicMetricsCollector, on_provider, Debug. cbn [provider debugged].
  destruct (NewMemGauges (provider env)) as [[om [e1|]] p1] eqn:Hm; cbn [fst snd provider debugged].
  - intros _. split; [reflexivity|]. split; [left; reflexivity|].
    intros P Hstep Hp. destruct (Hframe P Hstep _ Hp) as [H _]. now rewrite Hm in H.
  - destruct (NewSysGauge p1) as [[os [e2|]] p2] eqn:Hs; cbn [fst snd provider debugged].
    + intros _. split; [reflexivity|]. split; [right; reflexivity|].
      intros P Hstep Hp. destruct (Hframe P Hstep _ Hp) as [H _]. rewrite Hm in H.
      cbn [snd] in H. destruct (Hframe P Hstep _ H) as [_ H']. now rewrite Hs in H'.
    + destruct om as [m|]; [|discriminate].
      destruct (Collect m p2) as [u p3]. cbn [provider debugged].
      destruct os as [sg|]; [|discriminate].
      destruct (Collect sg p3) as [u' p4]. discriminate.
Qed.

(** X17.  When both constructors succeed, [BasicMetricsCollector] asks
    the provider, as it is after all 25 instruments were created, to
    register the memory callback and then the system callback; it writes
    both debug lines and returns nil even if a registration is refused. *)
Theorem X17_successful_setup_registers_memory_then_system env m sg p1 p2 :
  NewMemGauges (provider env) = ((Some m, None), p1) ->
  NewSysGauge p1 = ((Some sg, None), p2) ->
  BasicMetricsCollector env
    = (HTTP.Done None,
       {| provider := snd (RegisterCallback (sys_cb sg)
                             (snd (RegisterCallback (mem_cb m) p2)));
          debugged := debugged env
                      ++ ["configuring basic metrics..."; "basic metrics configured"] |}).
Proof.
  intros Hm Hs. unfold BasicMetricsCollector, on_provider, Debug.
  cbn [provider debugged]. rewrite Hm. cbn [provider debugged]. rewrite Hs.
  cbn [provider debugged Collect memGauges_BasicGauges sysGauges_BasicGauges].
  destruct (RegisterCallback (mem_cb m) p2) as [r1 p3]. cbn [snd provider debugged].
  destruct (RegisterCallback (sys_cb sg) p3) as [r2 p4]. cbn [snd].
  now rewrite <- app_assoc.
Qed.

End Constructors.

Import registry more_fixtures.

Lemma X12_witness :
  below_int64_max busy_stats /\ mem_values busy_stats = mem_fields busy_stats.
Proof.
  assert (H : below_int64_max busy_stats).
  { unfold below_int64_max, mem_fields. cbn. split; [|lia]. repeat constructor; lia. }
  split; [exact H|].
  exact (proj2 (X12_memory_values_are_the_fields busy_stats) H).
Defined.

Lemma X13_witness :
  2 ^ 63 <= Sys (memstats_at huge (instant huge)) < 2 ^ 64
  /\ Sys (memstats_at huge (instant huge)) - 2 ^ 64 < 0.
Proof.
  assert (H : 2 ^ 63 <= Sys (memstats_at huge (instant huge)) < 2 ^ 64) by (cbn; lia).
  split; [exact H|].
  exact (proj2 (X13_large_field_is_emitted_negative named huge H)).
Defined.

Lemma X16_witness :
  fst (BasicMetricsCollector {| provider := crowded; debugged := [] |})
    = HTTP.Done (Some "InstrumentCreationError: duplicate instrument name")
  /\ debugged (snd (BasicMetricsCollector {| provider := crowded; debugged := [] |}))
       = [] ++ ["configuring basic metrics..."].
Proof.
  assert (H : fst (BasicMetricsCollector {| provider := crowded; debugged := [] |})
              = HTTP.Done (Some "InstrumentCreationError: duplicate instrument name"))
    by (vm_compute; reflexivity).
  split; [exact H|].
  exact (proj1 (X16_failed_setup_registers_no_callback (meter := strict)
                  {| provider := crowded; debugged := [] |} _ H)).
Defined.

Lemma X17_witness :
  NewMemGauges empty = ((Some named, None), equipped)
  /\ NewSysGauge equipped = ((Some sys_named, None), snd (NewSysGauge equipped))
  /\ fst (BasicMetricsCollector {| provider := empty; debugged := [] |}) = HTTP.Done None.
Proof.
  assert (Hm : NewMemGauges empty = ((Some named, None), equipped))
    by (vm_compute; reflexivity).
  assert (Hs : NewSysGauge equipped = ((Some sys_named, None), snd (NewSysGauge equipped)))
    by (vm_compute; reflexivity).
  split; [exact Hm|]. split; [exact Hs|].
  exact (f_equal fst
    (X17_successful_setup_registers_memory_then_system (meter := strict)
       {| provider := empty; debugged := [] |} named sys_named equipped _ Hm Hs)).
Defined.

(** *** On a provider with unique instrument names *)

Lemma known_In (name : string) (l : list string) : known name l = true <-> In name l.
Proof.
  unfold known. rewrite existsb_exists. split.
  - intros (x & Hin & Heq). apply String.eqb_eq in Heq. now subst.
  - intros Hin. exists name. split; [exact Hin|apply String.eqb_refl].
Qed.

Lemma known_not_In (name : string) (l : list string) : ~ In name l -> known name l = false.
Proof.
  intros H. destruct (known name l) eqn:E; [|reflexivity].
  apply known_In in E. contradiction.
Qed.

Lemma strict_create_all (l : list (string * string)) :
  forall r : Registry,
    NoDup (map fst l) ->
    (forall name, In name (map fst l) -> ~ In name (map fst (instruments r))) ->
    create_all l r = ((map fst l, None), add_instruments l r).
Proof.
  induction l as [|[n d] l IH]; intros r Hnd Hfresh.
  - cbn. unfold add_instruments. rewrite app_nil_r. now destruct r.
  - cbn [create_all map fst] in *. inversion Hnd as [|x xs Hn Hnd']; subst.
    cbn [Int64ObservableGauge strict]. unfold create.
    rewrite (known_not_In n _ (Hfresh n (or_introl eq_refl))).
    rewrite IH.
    + unfold add_instruments. cbn [instruments callbacks]. now rewrite <- app_assoc.
    + exact Hnd'.
    + intros name Hin. cbn [instruments]. rewrite map_app, in_app_iff. cbn.
      intros [H|[H|[]]].
      * exact (Hfresh name (or_intror Hin) H).
      * subst. contradiction.
Qed.

Lemma strict_refuses_first (l : list (string * string)) (n d : string) (r : Registry) :
  In n (map fst (instruments r)) ->
  exists gs, create_all ((n, d) :: l) r
             = ((gs, Some "InstrumentCreationError: duplicate instrument name"), r).
Proof.
  intros Hin. cbn [create_all Int64ObservableGauge strict]. unfold create.
  apply known_In in Hin. rewrite Hin. eauto.
Qed.

Lemma collector_names_distinct :
  NoDup (map fst mem_instruments) /\ NoDup (map fst sys_instruments)
  /\ forall name, In name (map fst sys_instruments) -> ~ In name (map fst mem_instruments).
Proof.
  split; [|split].
  - assert (E : nodup string_dec (map fst mem_instruments) = map fst mem_instruments)
      by (vm_compute; reflexivity).
    rewrite <- E. apply NoDup_nodup.
  - assert (E : nodup string_dec (map fst sys_instruments) = map fst sys_instruments)
      by (vm_compute; reflexivity).
    rewrite <- E. apply NoDup_nodup.
  - intros name Hin Hin'. apply known_In in Hin'.
    cbn in Hin. destruct Hin as [<-|[<-|[<-|[]]]]; vm_compute in Hin'; discriminate.
Qed.

(** X18.  On a provider that refuses an instrument name created before
    and holds none of the collectors' names, the memory collector and
    then the system collector are built without error (their 25 names
    are all different), and building the memory collector a second time
    fails at its first instrument with the duplicate-name error and
    leaves the provider as it was. *)
Theorem X18_second_construction_is_refused (r : Registry) :
  unrelated r ->
  NewMemGauges r = ((Some named, None), add_instruments mem_instruments r)
  /\ NewSysGauge (add_instruments mem_instruments r)
       = ((Some sys_named, None),
          add_instruments sys_instruments (add_instruments mem_instruments r))
  /\ NewMemGauges (add_instruments mem_instruments r)
       = ((None, Some "InstrumentCreationError: duplicate instrument name"),
          add_instruments mem_instruments r).
Proof.
  intros Hun. destruct collector_names_distinct as (Hm & Hs & Hdis).
  split; [|split].
  - rewrite NewMemGauges_walk, strict_create_all; [reflexivity|exact Hm|].
    intros name Hin. apply Hun. rewrite map_app, in_app_iff. now left.
  - rewrite NewSysGauge_walk, strict_create_all; [reflexivity|exact Hs|].
    intros name Hin. cbn [add_instruments instruments]. rewrite map_app, in_app_iff.
    intros [H|H].
    + revert H. apply Hun. rewrite map_app, in_app_iff. now right.
    + exact (Hdis name Hin H).
  - rewrite NewMemGauges_walk. unfold mem_instruments at 1.
    match goal with
    | |- context [create_all ((?n, ?d) :: ?l) ?q] =>
        destruct (strict_refuses_first l n d q) as [gs ->]
    end; [|reflexivity].
    cbn [add_instruments instruments]. rewrite map_app, in_app_iff. right. cbn. now left.
Qed.

Lemma X18_witness :
  unrelated empty
  /\ NewMemGauges (add_instruments mem_instruments empty)
       = ((None, Some "InstrumentCreationError: duplicate instrument name"),
          add_instruments mem_instruments empty).
Proof.
  assert (H : unrelated empty) by (intros name _ []).
  split; [exact H|].
  exact (proj2 (proj2 (X18_second_construction_is_refused empty H))).
Defined.

End system_go_facts.
